(** * OpenFPGA: the link and repack commands

    A shallow embedding of [openfpga/src/base/openfpga_link_arch.cpp] and
    [openfpga/src/base/openfpga_repack.cpp].

    The two files are orchestration code: they call a series of passes
    that live in other translation units.  The functions that are written
    out in the two files ([is_vpr_rr_graph_supported],
    [annotate_simulation_setting], [link_arch], [repack]) are embedded
    statement by statement; the passes they call are taken as members of
    interfaces (type classes), so that every theorem about the
    orchestration holds for whatever the passes compute.  Logging
    ([VTR_LOG], the scoped timer) does not change any state that the
    functions return and is left out. *)

From Stdlib Require Import ZArith QArith Qabs Qpower Lqa.
From Stdlib Require Import Floats.SpecFloat.
From stdpp Require Import base list strings.

Set Default Proof Using "Type".

(** ** The routing-resource graph *)

(** Modelled from the spec: [t_rr_type] is declared in a header of the
    place-and-route engine that is not part of the two files.  The source
    names [CHANX] and [CHANY]; the spec lists the kinds of nodes as
    channel-X, channel-Y, source, sink, input-pin and output-pin. *)
Inductive t_rr_type : Set :=
  | SOURCE | SINK | IPIN | OPIN | CHANX | CHANY.

(** Modelled from the spec: [e_direction] is declared in the same header.
    The source names [BI_DIRECTION]; a node is uni-directional, in the
    increasing or in the decreasing direction, or bidirectional, and a
    node that is not a track has no direction. *)
Inductive e_direction : Set :=
  | INC_DIRECTION | DEC_DIRECTION | BI_DIRECTION | NO_DIRECTION.

Global Instance t_rr_type_eq_dec : EqDecision t_rr_type.
Proof. solve_decision. Defined.

Global Instance e_direction_eq_dec : EqDecision e_direction.
Proof. solve_decision. Defined.

(** A node carries the two attributes that the code of this repository
    reads: [rr_graph.node_type(node)] and [rr_graph.node_direction(node)]. *)
Record rr_node : Set := mk_rr_node {
  node_type : t_rr_type;
  node_direction : e_direction;
}.

(** [rr_graph.nodes()] enumerates the nodes in storage order; the graph is
    the list of its nodes and an [RRNodeId] is a position in it. *)
Abbreviation RRGraph := (list rr_node).

(** A routing track: a node of type [CHANX] or [CHANY]. *)
Definition channel_node (node : rr_node) : Prop :=
  node_type node = CHANX ∨ node_type node = CHANY.

Global Instance channel_node_dec node : Decision (channel_node node).
Proof. unfold channel_node. apply _. Defined.

(** [is_vpr_rr_graph_supported], lines 38-52.  The loop visits the nodes
    in order, skips ([continue]) the nodes that are neither [CHANX] nor
    [CHANY], returns [false] at the first track whose direction is
    [BI_DIRECTION], and returns [true] when the loop runs out. *)
Fixpoint is_vpr_rr_graph_supported (rr_graph : RRGraph) : bool :=
  match rr_graph with
  | [] => true
  | node :: rest =>
      if bool_decide (CHANX ≠ node_type node) && bool_decide (CHANY ≠ node_type node)
      then is_vpr_rr_graph_supported rest
      else if bool_decide (BI_DIRECTION = node_direction node)
      then false
      else is_vpr_rr_graph_supported rest
  end.

(** A track that may be driven from both ends. *)
Definition bidirectional_channel (node : rr_node) : Prop :=
  channel_node node ∧ node_direction node = BI_DIRECTION.

(** A track with a single direction, increasing or decreasing. *)
Definition uni_directional (node : rr_node) : Prop :=
  node_direction node = INC_DIRECTION ∨ node_direction node = DEC_DIRECTION.

(** ** Floating-point numbers

    The clock frequency, the slack and the critical-path delay are C++
    floating-point numbers.  They are modelled as IEEE 754 values
    ([spec_float]); single precision is the format with a 24-bit mantissa
    and double precision the one with a 53-bit mantissa, and every
    operation rounds to nearest, ties to even. *)
Module Float.

Definition float_prec : Z := 24.
Definition float_emax : Z := 128.
Definition double_prec : Z := 53.
Definition double_emax : Z := 1024.

(** Rounding of a value into a format; infinities, zeros and NaN are
    values of every format. *)
Definition round_to (prec emax : Z) (x : spec_float) : spec_float :=
  match x with
  | S754_finite s m e => binary_round prec emax s m e
  | _ => x
  end.

(** The implicit conversion to [double], which keeps the value of a
    [float]. *)
Definition to_double : spec_float → spec_float := round_to double_prec double_emax.

(** The conversion to [float], as in [float T_crit = <double>]. *)
Definition to_float : spec_float → spec_float := round_to float_prec float_emax.

(** The literal [0.]. *)
Definition zero : spec_float := S754_zero false.

(** The literal [1.], a [double], and the integer [1] converted to
    [float]. *)
Definition one_double : spec_float := SFone double_prec double_emax.
Definition one_float : spec_float := SFone float_prec float_emax.

Definition add_double : spec_float → spec_float → spec_float := SFadd double_prec double_emax.
Definition mul_double : spec_float → spec_float → spec_float := SFmul double_prec double_emax.
Definition div_float : spec_float → spec_float → spec_float := SFdiv float_prec float_emax.

(** The comparison [==]: the two zeros are equal, NaN equals nothing. *)
Definition eqb : spec_float → spec_float → bool := SFeqb.

Definition is_zero (x : spec_float) : Prop := ∃ s, x = S754_zero s.

(** The rational number that a finite value stands for. *)
Definition to_Q (x : spec_float) : Q :=
  match x with
  | S754_finite s m e => (inject_Z (cond_Zopp s (Zpos m)) * Qpower 2 e)%Q
  | _ => 0%Q
  end.

(** A finite number: a zero or a number with a mantissa, as opposed to an
    infinity or NaN; and its sign bit. *)
Definition is_finite (x : spec_float) : Prop :=
  match x with
  | S754_zero _ | S754_finite _ _ _ => True
  | _ => False
  end.

Definition sign (x : spec_float) : bool :=
  match x with
  | S754_zero s | S754_infinity s | S754_finite s _ _ => s
  | S754_nan => false
  end.

(** A normal number of a format: finite, with a mantissa of full width, so
    neither an overflow nor an underflow. *)
Definition normalb (prec : Z) (x : spec_float) : bool :=
  match x with
  | S754_finite _ m _ => (2 ^ (prec - 1) <=? Z.pos m)%Z
  | _ => false
  end.

(** A positive finite number, and a finite number that is not negative. *)
Definition positive_finite (x : spec_float) : Prop :=
  ∃ m e, x = S754_finite false m e.

Definition nonnegative_finite (x : spec_float) : Prop :=
  (∃ s, x = S754_zero s) ∨ positive_finite x.

End Float.

(** ** Simulation settings *)

(** Modelled from the spec: the class [SimulationSetting] is declared in a
    header that is not part of the two files.  The spec lists its scalar
    parameters: the operating clock frequency, the clock-frequency slack
    fraction and the simulation cycle count. *)
Record SimulationSetting : Set := mk_SimulationSetting {
  operating_clock_frequency : spec_float;
  operating_clock_frequency_slack : spec_float;
  num_clock_cycles : Z;
}.

Definition set_operating_clock_frequency
    (clock_freq : spec_float) (sim_setting : SimulationSetting) : SimulationSetting :=
  {| operating_clock_frequency := clock_freq;
     operating_clock_frequency_slack := operating_clock_frequency_slack sim_setting;
     num_clock_cycles := num_clock_cycles sim_setting |}.

(** ** Calls and the execution monad *)

(** The calls that the link command makes into other translation units and
    into its two local helpers, in the order of their first appearance in
    the source. *)
Inductive call : Set :=
  | Call_annotate_pb_types
  | Call_annotate_pb_graph
  | Call_annotate_rr_graph_circuit_models
  | Call_vpr_routing_annotation_init
  | Call_annotate_rr_node_nets
  | Call_is_vpr_rr_graph_supported
  | Call_annotate_device_rr_gsb
  | Call_build_device_mux_library
  | Call_build_device_tile_direct
  | Call_annotate_mapped_blocks
  | Call_annotate_simulation_setting
  | Call_load_net_delay_from_routing
  | Call_timing_info_update.

Global Instance call_eq_dec : EqDecision call.
Proof. solve_decision. Defined.

(** A computation over a mutable structure [S]: it returns a value, the
    structure as it has been left, and the calls made, oldest first. *)
Definition Exec (S A : Type) : Type := S → A * S * list call.

Definition final {S A} (r : A * S * list call) : S := r.1.2.
Definition calls {S A} (r : A * S * list call) : list call := r.2.

Global Instance Exec_ret {S} : MRet (Exec S) := λ A a s, (a, s, []).

Global Instance Exec_bind {S} : MBind (Exec S) := λ A B k m s,
  let '(a, s1, t1) := m s in
  let '(b, s2, t2) := k a s1 in
  (b, s2, t1 ++ t2).

(** A call that updates the structure in place. *)
Definition update {S} (c : call) (f : S → S) : Exec S unit :=
  λ s, (tt, f s, [c]).

(** A call that only reads. *)
Definition query {S A} (c : call) (f : S → A) : Exec S A :=
  λ s, (f s, s, [c]).

(** A computation over a member of the structure, reached through its
    accessor and written back through its mutable accessor. *)
Definition on_member {S T A} (get : S → T) (set : T → S → S) (m : Exec T A) : Exec S A :=
  λ s, let '(a, t, tr) := m (get s) in (a, set t s, tr).

(** Reading and writing a member of the structure at hand. *)
Definition get_member {S A} (f : S → A) : Exec S A := λ s, (f s, s, []).
Definition set_member {S} (f : S → S) : Exec S unit := λ s, (tt, f s, []).

(** The entry into a helper whose body is embedded in place. *)
Definition enter {S} (c : call) : Exec S unit := λ s, (tt, s, [c]).

(** ** Interfaces of the collaborators *)

(** The data of the place-and-route engine, reached in the source through
    the global [g_vpr_ctx] and only read by the two commands.  The
    routing-resource graph is the one member whose content the code of the
    two files inspects. *)
Class Vpr : Type := {
  DeviceContext : Type;
  ClusteringContext : Type;
  RoutingContext : Type;
  PlacementContext : Type;
  AtomContext : Type;
  rr_graph : DeviceContext → RRGraph;
}.

Record VprContext `{Vpr} : Type := mk_VprContext {
  device : DeviceContext;
  clustering : ClusteringContext;
  routing : RoutingContext;
  placement : PlacementContext;
  atom : AtomContext;
}.

(** The timing analysis of the engine, lines 74-86: the net delays are
    loaded from the routing held in the global context, the analysis is
    run over the atom netlist, and the delay of the least-slack critical
    path is read off. *)
Class TimingAnalysis `{Vpr} : Type := {
  NetDelay : Type;
  load_net_delay_from_routing : VprContext → NetDelay;
  least_slack_critical_path_delay : AtomContext → NetDelay → spec_float;
}.

(** The command shell: options are looked up by name in the command, and
    the command context tells whether an option was given and with which
    value. *)
Class Shell : Type := {
  Command : Type;
  CommandContext : Type;
  CommandOptionId : Type;
  cmd_option : Command → string → CommandOptionId;
  option_enable : CommandContext → Command → CommandOptionId → bool;
  option_value : CommandContext → Command → CommandOptionId → string;
}.

(** The structures owned by the OpenFPGA context. *)
Class Structures : Type := {
  CircuitLibrary : Type;
  ArchDirect : Type;
  VprDeviceAnnotation : Type;
  VprRoutingAnnotation : Type;
  VprClusteringAnnotation : Type;
  VprPlacementAnnotation : Type;
  DeviceRRGSB : Type;
  MuxLibrary : Type;
  TileDirect : Type;
}.

(** [openfpga_ctx.arch()], with the members that the two files name. *)
Record Arch `{Structures} : Type := mk_Arch {
  circuit_lib : CircuitLibrary;
  sim_setting : SimulationSetting;
  arch_direct : ArchDirect;
}.

Record OpenfpgaContext `{Structures} : Type := mk_OpenfpgaContext {
  arch : Arch;
  vpr_device_annotation : VprDeviceAnnotation;
  vpr_routing_annotation : VprRoutingAnnotation;
  vpr_clustering_annotation : VprClusteringAnnotation;
  vpr_placement_annotation : VprPlacementAnnotation;
  device_rr_gsb : DeviceRRGSB;
  mux_lib : MuxLibrary;
  tile_direct : TileDirect;
}.

Section Mutators.
Context `{Structures}.

(** The [mutable_...()] accessors, as functional updates. *)
Definition set_sim_setting (s : SimulationSetting) (a : Arch) : Arch :=
    mk_Arch _ (circuit_lib a) s (arch_direct a).

Definition set_arch (a : Arch) (c : OpenfpgaContext) : OpenfpgaContext :=
    mk_OpenfpgaContext _ a (vpr_device_annotation c) (vpr_routing_annotation c)
      (vpr_clustering_annotation c) (vpr_placement_annotation c)
      (device_rr_gsb c) (mux_lib c) (tile_direct c).

Definition set_vpr_device_annotation (x : VprDeviceAnnotation) (c : OpenfpgaContext) :=
    mk_OpenfpgaContext _ (arch c) x (vpr_routing_annotation c)
      (vpr_clustering_annotation c) (vpr_placement_annotation c)
      (device_rr_gsb c) (mux_lib c) (tile_direct c).

Definition set_vpr_routing_annotation (x : VprRoutingAnnotation) (c : OpenfpgaContext) :=
    mk_OpenfpgaContext _ (arch c) (vpr_device_annotation c) x
      (vpr_clustering_annotation c) (vpr_placement_annotation c)
      (device_rr_gsb c) (mux_lib c) (tile_direct c).

Definition set_vpr_clustering_annotation (x : VprClusteringAnnotation) (c : OpenfpgaContext) :=
    mk_OpenfpgaContext _ (arch c) (vpr_device_annotation c) (vpr_routing_annotation c)
      x (vpr_placement_annotation c)
      (device_rr_gsb c) (mux_lib c) (tile_direct c).

Definition set_vpr_placement_annotation (x : VprPlacementAnnotation) (c : OpenfpgaContext) :=
    mk_OpenfpgaContext _ (arch c) (vpr_device_annotation c) (vpr_routing_annotation c)
      (vpr_clustering_annotation c) x
      (device_rr_gsb c) (mux_lib c) (tile_direct c).

Definition set_device_rr_gsb (x : DeviceRRGSB) (c : OpenfpgaContext) :=
    mk_OpenfpgaContext _ (arch c) (vpr_device_annotation c) (vpr_routing_annotation c)
      (vpr_clustering_annotation c) (vpr_placement_annotation c)
      x (mux_lib c) (tile_direct c).

Definition set_mux_lib (x : MuxLibrary) (c : OpenfpgaContext) :=
    mk_OpenfpgaContext _ (arch c) (vpr_device_annotation c) (vpr_routing_annotation c)
      (vpr_clustering_annotation c) (vpr_placement_annotation c)
      (device_rr_gsb c) x (tile_direct c).

Definition set_tile_direct (x : TileDirect) (c : OpenfpgaContext) :=
    mk_OpenfpgaContext _ (arch c) (vpr_device_annotation c) (vpr_routing_annotation c)
      (vpr_clustering_annotation c) (vpr_placement_annotation c)
      (device_rr_gsb c) (mux_lib c) x.
End Mutators.

(** The passes of the link command.  Each takes what the call in
    [link_arch] passes to it and returns the structure it was given a
    mutable reference to, as the pass leaves it.  A pass that ends the
    process does not return to [link_arch] at all; the interface describes
    the passes on the runs where they return. *)
Class LinkPasses `{Vpr, Structures} : Type := {
  annotate_pb_types :
    DeviceContext → Arch → VprDeviceAnnotation → bool → VprDeviceAnnotation;
  annotate_pb_graph :
    DeviceContext → VprDeviceAnnotation → bool → VprDeviceAnnotation;
  annotate_rr_graph_circuit_models :
    DeviceContext → Arch → VprDeviceAnnotation → bool → VprDeviceAnnotation;
  vpr_routing_annotation_init :
    VprRoutingAnnotation → RRGraph → VprRoutingAnnotation;
  annotate_rr_node_nets :
    DeviceContext → ClusteringContext → RoutingContext → VprRoutingAnnotation → bool →
    VprRoutingAnnotation;
  annotate_device_rr_gsb :
    DeviceContext → DeviceRRGSB → bool → DeviceRRGSB;
  build_device_mux_library :
    DeviceContext → OpenfpgaContext → MuxLibrary;
  build_device_tile_direct :
    DeviceContext → ArchDirect → TileDirect;
  annotate_mapped_blocks :
    DeviceContext → ClusteringContext → PlacementContext → VprPlacementAnnotation →
    VprPlacementAnnotation;
}.

(** ** The link command *)

(** The frequency that line 87 stores, from the delay [T] of the critical
    path and the slack [s]: the [float] quotient of [1] by [T_crit], where
    [T_crit] is the [double] product [T * (1. + s)] narrowed to [float]. *)
Definition derived_frequency (T s : spec_float) : spec_float :=
  Float.div_float Float.one_float
    (Float.to_float
       (Float.mul_double (Float.to_double T)
          (Float.add_double Float.one_double (Float.to_double s)))).

(** No step of the computation of lines 86-87 overflows or underflows: the
    conversions of [T] and [s] to [double], the sum, the product, its
    narrowing [T_crit] and the quotient are normal numbers.  A slack of
    zero is exact and needs no such condition. *)
Definition derivation_in_range (T s : spec_float) : bool :=
  let sum := Float.add_double Float.one_double (Float.to_double s) in
  let product := Float.mul_double (Float.to_double T) sum in
  let T_crit := Float.to_float product in
  Float.normalb Float.double_prec (Float.to_double T)
  && match s with
     | S754_zero _ => true
     | _ => Float.normalb Float.double_prec (Float.to_double s)
     end
  && Float.normalb Float.double_prec sum
  && Float.normalb Float.double_prec product
  && Float.normalb Float.float_prec T_crit
  && Float.normalb Float.float_prec (Float.div_float Float.one_float T_crit).

(** The tolerance of the derived frequency, relative to [1 / (T * (1 + s))]:
    four units in the last place of a [float]. *)
Definition frequency_tolerance : Q := 1 # 2097152.

(** Two positive rationals within the factor [k] of each other. *)
Definition within_factor (k x y : Q) : Prop :=
  (0 < x ∧ 0 < y ∧ x <= k * y ∧ y <= k * x)%Q.

(** A rational between two consecutive multiples of [2 ^ ex]. *)
Definition between_multiples (mx ex : Z) (v : Q) : Prop :=
  (inject_Z mx * 2 ^ ex <= v ∧ v <= inject_Z (mx + 1) * 2 ^ ex)%Q.

(** The factor within which a mantissa of at least [P] is rounded. *)
Definition rounding_factor (P : Z) : Q := (inject_Z P / (inject_Z P - 1))%Q.

(** The factor that the six roundings of lines 86-87 add up to: two in
    single precision (the narrowing and the quotient) and four in double
    precision (the two conversions, the sum and the product). *)
Definition frequency_factor : Q :=
  (rounding_factor (2 ^ (Float.float_prec - 1)) *
   (rounding_factor (2 ^ (Float.float_prec - 1)) *
    (rounding_factor (2 ^ (Float.double_prec - 1)) *
     (rounding_factor (2 ^ (Float.double_prec - 1)) *
      (rounding_factor (2 ^ (Float.double_prec - 1)) *
       rounding_factor (2 ^ (Float.double_prec - 1)))))))%Q.

Section Link.
Context `{Vpr, !TimingAnalysis, Shell, Structures, !LinkPasses}.

(** The global [g_vpr_ctx]. *)
Variable g_vpr_ctx : VprContext.

(** [annotate_simulation_setting], lines 61-93.  The comparison of line
    66 is between the literal [0.] and the stored frequency; promoting
    the frequency to [double] keeps its value, so the comparison is the
    IEEE comparison of the two values.  In line 86 the sum and the
    product are formed in double precision, because of the literal [1.],
    and the product is narrowed to the [float] variable [T_crit]; in line
    87 the integer [1] is divided by that [float]. *)
Definition annotate_simulation_setting (atom_ctx : AtomContext) : Exec SimulationSetting unit :=
  frequency ← get_member operating_clock_frequency;
  if Float.eqb Float.zero frequency then
    net_delay ← query Call_load_net_delay_from_routing
                  (λ _, load_net_delay_from_routing g_vpr_ctx);
    delay ← query Call_timing_info_update
                  (λ _, least_slack_critical_path_delay atom_ctx net_delay);
    slack ← get_member operating_clock_frequency_slack;
    let T_crit :=
      Float.to_float
        (Float.mul_double (Float.to_double delay)
           (Float.add_double Float.one_double (Float.to_double slack))) in
    set_member (set_operating_clock_frequency (Float.div_float Float.one_float T_crit))
  else mret tt.

(** [link_arch], lines 103-171. *)
Definition link_arch (cmd : Command) (cmd_context : CommandContext) : Exec OpenfpgaContext unit :=
  let opt_verbose := cmd_option cmd "verbose" in
  update Call_annotate_pb_types (λ openfpga_ctx,
    set_vpr_device_annotation
      (annotate_pb_types (device g_vpr_ctx) (arch openfpga_ctx)
         (vpr_device_annotation openfpga_ctx)
         (option_enable cmd_context cmd opt_verbose))
      openfpga_ctx);;
  update Call_annotate_pb_graph (λ openfpga_ctx,
    set_vpr_device_annotation
      (annotate_pb_graph (device g_vpr_ctx)
         (vpr_device_annotation openfpga_ctx)
         (option_enable cmd_context cmd opt_verbose))
      openfpga_ctx);;
  update Call_annotate_rr_graph_circuit_models (λ openfpga_ctx,
    set_vpr_device_annotation
      (annotate_rr_graph_circuit_models (device g_vpr_ctx) (arch openfpga_ctx)
         (vpr_device_annotation openfpga_ctx)
         (option_enable cmd_context cmd opt_verbose))
      openfpga_ctx);;
  update Call_vpr_routing_annotation_init (λ openfpga_ctx,
    set_vpr_routing_annotation
      (vpr_routing_annotation_init (vpr_routing_annotation openfpga_ctx)
         (rr_graph (device g_vpr_ctx)))
      openfpga_ctx);;
  update Call_annotate_rr_node_nets (λ openfpga_ctx,
    set_vpr_routing_annotation
      (annotate_rr_node_nets (device g_vpr_ctx) (clustering g_vpr_ctx) (routing g_vpr_ctx)
         (vpr_routing_annotation openfpga_ctx)
         (option_enable cmd_context cmd opt_verbose))
      openfpga_ctx);;
  supported ← query Call_is_vpr_rr_graph_supported
                (λ _, is_vpr_rr_graph_supported (rr_graph (device g_vpr_ctx)));
  if bool_decide (false = supported) then mret tt
  else
    update Call_annotate_device_rr_gsb (λ openfpga_ctx,
      set_device_rr_gsb
        (annotate_device_rr_gsb (device g_vpr_ctx)
           (device_rr_gsb openfpga_ctx)
           (option_enable cmd_context cmd opt_verbose))
        openfpga_ctx);;
    update Call_build_device_mux_library (λ openfpga_ctx,
      set_mux_lib (build_device_mux_library (device g_vpr_ctx) openfpga_ctx) openfpga_ctx);;
    update Call_build_device_tile_direct (λ openfpga_ctx,
      set_tile_direct
        (build_device_tile_direct (device g_vpr_ctx) (arch_direct (arch openfpga_ctx)))
        openfpga_ctx);;
    update Call_annotate_mapped_blocks (λ openfpga_ctx,
      set_vpr_placement_annotation
        (annotate_mapped_blocks (device g_vpr_ctx) (clustering g_vpr_ctx)
           (placement g_vpr_ctx) (vpr_placement_annotation openfpga_ctx))
        openfpga_ctx);;
    enter Call_annotate_simulation_setting;;
    on_member (λ openfpga_ctx, sim_setting (arch openfpga_ctx))
              (λ s openfpga_ctx, set_arch (set_sim_setting s (arch openfpga_ctx)) openfpga_ctx)
              (annotate_simulation_setting (atom g_vpr_ctx)).

(** The device annotation after the three passes that write it. *)
Definition linked_device_annotation
    (cmd : Command) (cmd_context : CommandContext) (openfpga_ctx : OpenfpgaContext) :
    VprDeviceAnnotation :=
  let verbose := option_enable cmd_context cmd (cmd_option cmd "verbose") in
  annotate_rr_graph_circuit_models (device g_vpr_ctx) (arch openfpga_ctx)
    (annotate_pb_graph (device g_vpr_ctx)
       (annotate_pb_types (device g_vpr_ctx) (arch openfpga_ctx)
          (vpr_device_annotation openfpga_ctx) verbose)
       verbose)
    verbose.

(** The routing annotation after its initialisation and the net pass. *)
Definition linked_routing_annotation
    (cmd : Command) (cmd_context : CommandContext) (openfpga_ctx : OpenfpgaContext) :
    VprRoutingAnnotation :=
  annotate_rr_node_nets (device g_vpr_ctx) (clustering g_vpr_ctx) (routing g_vpr_ctx)
    (vpr_routing_annotation_init (vpr_routing_annotation openfpga_ctx)
       (rr_graph (device g_vpr_ctx)))
    (option_enable cmd_context cmd (cmd_option cmd "verbose")).

(** The context when the graph is checked (line 146): the device and the
    routing annotations have been written, the rest is as it was. *)
Definition context_at_check
    (cmd : Command) (cmd_context : CommandContext) (openfpga_ctx : OpenfpgaContext) :
    OpenfpgaContext :=
  set_vpr_routing_annotation (linked_routing_annotation cmd cmd_context openfpga_ctx)
    (set_vpr_device_annotation (linked_device_annotation cmd cmd_context openfpga_ctx)
       openfpga_ctx).

(** The context that the builder of the multiplexer library is given
    (lines 155-156): the one of the check, with the switch blocks of line
    150 in place. *)
Definition context_with_gsb
    (cmd : Command) (cmd_context : CommandContext) (openfpga_ctx : OpenfpgaContext) :
    OpenfpgaContext :=
  set_device_rr_gsb
    (annotate_device_rr_gsb (device g_vpr_ctx) (device_rr_gsb openfpga_ctx)
       (option_enable cmd_context cmd (cmd_option cmd "verbose")))
    (context_at_check cmd cmd_context openfpga_ctx).

End Link.

(** ** Order of calls *)

(** [runs_before a b tr]: in the trace [tr], every call of [b] comes after
    a call of [a]. *)
Definition runs_before (a b : call) (tr : list call) : Prop :=
  ∀ pre post, tr = pre ++ b :: post → a ∈ pre.

Fixpoint runs_beforeb (a b : call) (tr : list call) : bool :=
  match tr with
  | [] => true
  | c :: rest =>
      if decide (c = b) then false
      else if decide (c = a) then true
      else runs_beforeb a b rest
  end.

(** The calls of [link_arch] up to the check of the graph, and those after
    it. *)
Definition link_calls_before_check : list call :=
  [ Call_annotate_pb_types; Call_annotate_pb_graph;
    Call_annotate_rr_graph_circuit_models;
    Call_vpr_routing_annotation_init; Call_annotate_rr_node_nets;
    Call_is_vpr_rr_graph_supported ].

Definition link_calls_after_check : list call :=
  [ Call_annotate_device_rr_gsb; Call_build_device_mux_library;
    Call_build_device_tile_direct; Call_annotate_mapped_blocks;
    Call_annotate_simulation_setting ].

(** The passes that write an annotation. *)
Definition annotation_passes : list call :=
  [ Call_annotate_pb_types; Call_annotate_pb_graph;
    Call_annotate_rr_graph_circuit_models;
    Call_vpr_routing_annotation_init; Call_annotate_rr_node_nets;
    Call_annotate_device_rr_gsb; Call_build_device_mux_library;
    Call_build_device_tile_direct; Call_annotate_mapped_blocks ].

(** ** The repack command *)

(** A run either returns to its caller or stops at a failed [VTR_ASSERT],
    which ends the process. *)
Inductive outcome (A : Type) : Type :=
  | Returned (a : A)
  | AssertionFailed.

Arguments Returned {A} a.
Arguments AssertionFailed {A}.

Global Instance outcome_ret : MRet outcome := λ A a, Returned a.

Global Instance outcome_bind : MBind outcome := λ A B k m,
  match m with
  | Returned a => k a
  | AssertionFailed => AssertionFailed
  end.

(** Modelled from the spec: the macro [VTR_ASSERT] comes from a header
    that is not part of the two files.  A violated assertion is fatal: it
    ends the run instead of being reported to the caller. *)
Definition VTR_ASSERT (condition : bool) : outcome unit :=
  if condition then Returned tt else AssertionFailed.

(** Modelled from the spec: [command_exit_codes.h] is not part of the two
    files.  The spec calls a failure a non-zero completion code, so the
    success code is zero. *)
Definition CMD_EXEC_SUCCESS : Z := 0.

(** Modelled from the spec: the class [RepackDesignConstraints] is declared
    in a library that is not part of the two files.  The spec describes it
    as an ordered set of rules, each pinning an atom net to a physical pin,
    empty by default. *)
Record RepackDesignConstraint : Set := mk_RepackDesignConstraint {
  constraint_net : string;
  constraint_pin : string;
}.

Abbreviation RepackDesignConstraints := (list RepackDesignConstraint).

(** Two rules that claim the same physical pin. *)
Definition conflicting (constraints : RepackDesignConstraints) : Prop :=
  ∃ i j c1 c2, i ≠ j ∧ constraints !! i = Some c1 ∧ constraints !! j = Some c2 ∧
               constraint_pin c1 = constraint_pin c2.

(** Whether a step did its work.  The two steps of the repack command are
    called as statements, so their caller never sees this; it is part of
    the interface only to let the properties of the command speak about
    runs in which a step fails. *)
Inductive step_status : Set := StepSucceeded | StepFailed.

(** The two steps of the repack command, with the arguments of the calls
    in [repack].  [pack_physical_pbs] is given mutable references to the
    device annotation and to the clustering annotation,
    [build_physical_lut_truth_tables] to the clustering annotation. *)
Class RepackPasses `{Vpr, Structures} : Type := {
  pack_physical_pbs :
    DeviceContext → AtomContext → ClusteringContext →
    VprDeviceAnnotation → VprClusteringAnnotation → bool →
    VprDeviceAnnotation * VprClusteringAnnotation * step_status;
  build_physical_lut_truth_tables :
    VprClusteringAnnotation → AtomContext → ClusteringContext →
    VprDeviceAnnotation → CircuitLibrary → bool →
    VprClusteringAnnotation * step_status;
}.

Section Repack.
Context `{Vpr, Shell, Structures, !RepackPasses}.

Variable g_vpr_ctx : VprContext.

(** The parser of the constraint file: the rules found in the file of the
    given name, on the runs where the parser returns. *)
Variable read_xml_repack_design_constraints : string → RepackDesignConstraints.

(** The statuses that the two steps reach in a run of [repack] on a given
    context. *)
Definition pack_physical_pbs_status
    (cmd : Command) (cmd_context : CommandContext) (openfpga_ctx : OpenfpgaContext) : step_status :=
  (pack_physical_pbs (device g_vpr_ctx) (atom g_vpr_ctx) (clustering g_vpr_ctx)
     (vpr_device_annotation openfpga_ctx) (vpr_clustering_annotation openfpga_ctx)
     (option_enable cmd_context cmd (cmd_option cmd "verbose"))).2.

Definition after_pack_physical_pbs
    (cmd : Command) (cmd_context : CommandContext) (openfpga_ctx : OpenfpgaContext) : OpenfpgaContext :=
  let packed :=
    (pack_physical_pbs (device g_vpr_ctx) (atom g_vpr_ctx) (clustering g_vpr_ctx)
       (vpr_device_annotation openfpga_ctx) (vpr_clustering_annotation openfpga_ctx)
       (option_enable cmd_context cmd (cmd_option cmd "verbose"))).1 in
  set_vpr_clustering_annotation packed.2
    (set_vpr_device_annotation packed.1 openfpga_ctx).

Definition build_physical_lut_truth_tables_status
    (cmd : Command) (cmd_context : CommandContext) (openfpga_ctx : OpenfpgaContext) : step_status :=
  (build_physical_lut_truth_tables (vpr_clustering_annotation openfpga_ctx)
     (atom g_vpr_ctx) (clustering g_vpr_ctx)
     (vpr_device_annotation openfpga_ctx) (circuit_lib (arch openfpga_ctx))
     (option_enable cmd_context cmd (cmd_option cmd "verbose"))).2.

Definition after_build_physical_lut_truth_tables
    (cmd : Command) (cmd_context : CommandContext) (openfpga_ctx : OpenfpgaContext) : OpenfpgaContext :=
  set_vpr_clustering_annotation
    (build_physical_lut_truth_tables (vpr_clustering_annotation openfpga_ctx)
       (atom g_vpr_ctx) (clustering g_vpr_ctx)
       (vpr_device_annotation openfpga_ctx) (circuit_lib (arch openfpga_ctx))
       (option_enable cmd_context cmd (cmd_option cmd "verbose"))).1
    openfpga_ctx.

(** [repack], lines 29-59.  The constraints are loaded into a local
    variable (lines 36-41) which no later statement reads; the two steps
    are called as statements and the function ends with
    [return CMD_EXEC_SUCCESS]. *)
Definition repack (cmd : Command) (cmd_context : CommandContext)
    (openfpga_ctx : OpenfpgaContext) : outcome (Z * OpenfpgaContext) :=
  let opt_design_constraints := cmd_option cmd "design_constraints" in
  let opt_verbose := cmd_option cmd "verbose" in
  repack_design_constraints ←
    (if bool_decide (true = option_enable cmd_context cmd opt_design_constraints) then
       let dc_fname := option_value cmd_context cmd opt_design_constraints in
       VTR_ASSERT (bool_decide (false = bool_decide (dc_fname = "")));;
       mret (read_xml_repack_design_constraints dc_fname)
     else mret []);
  let openfpga_ctx := after_pack_physical_pbs cmd cmd_context openfpga_ctx in
  let openfpga_ctx := after_build_physical_lut_truth_tables cmd cmd_context openfpga_ctx in
  mret (CMD_EXEC_SUCCESS, openfpga_ctx).

End Repack.

(** ** The multiplexer library *)

Module MuxLib.

(** Modelled from the spec: [build_device_mux_library] is defined in
    [mux_library_builder.cpp], which is not part of the two files; the
    link command only calls it.  The spec describes the structural
    signature of a multiplexer as the ordered input-source classes, the
    output class and the circuit model. *)
Record MuxSignature : Set := mk_MuxSignature {
  input_classes : list nat;
  output_class : nat;
  circuit_model : nat;
}.

Global Instance MuxSignature_eq_dec : EqDecision MuxSignature.
Proof. solve_decision. Defined.

(** Modelled from the spec: a multiplexer as a fan-in structure implies
    it.  Each input and the output is a routing node or pin, given by its
    identifier and its class. *)
Record MuxInstance : Set := mk_MuxInstance {
  mux_inputs : list (nat * nat);
  mux_output : nat * nat;
  mux_circuit_model : nat;
}.

Definition signature (mux : MuxInstance) : MuxSignature :=
  {| input_classes := (mux_inputs mux).*2;
     output_class := (mux_output mux).2;
     circuit_model := mux_circuit_model mux |}.

(** Modelled from the spec: a switch block, keyed by the coordinate of its
    tile, with the multiplexers that its fan-in implies. *)
Record GSB : Set := mk_GSB {
  gsb_coordinate : nat * nat;
  gsb_muxes : list MuxInstance;
}.

(** Modelled from the spec: the library holds one entry per signature, in
    the order in which the signatures were first seen; the canonical
    identifier of an entry is its position. *)
Abbreviation MuxLibrary := (list MuxSignature).

Definition mux_id (library : MuxLibrary) (mux : MuxInstance) : option nat :=
  fst <$> list_find (λ entry, entry = signature mux) library.

(** Modelled from the spec: the signature is looked up in the growing
    library; if absent, a new entry is allocated, else the existing one is
    reused. *)
Definition add_mux (library : MuxLibrary) (mux : MuxInstance) : MuxLibrary :=
  if decide (signature mux ∈ library) then library else library ++ [signature mux].

(** The multiplexers of a device: those of its switch blocks, then those
    of the pb interconnect. *)
Definition device_muxes (gsbs : list GSB) (pb_interconnect : list MuxInstance) : list MuxInstance :=
  concat (gsb_muxes <$> gsbs) ++ pb_interconnect.

(** Modelled from the spec: the builder visits every multiplexer of the
    device and adds it to a library that starts empty. *)
Definition build_device_mux_library
    (gsbs : list GSB) (pb_interconnect : list MuxInstance) : MuxLibrary :=
  foldl add_mux [] (device_muxes gsbs pb_interconnect).

(** The distinct signatures among the multiplexers of a device. *)
Definition distinct_signatures
    (gsbs : list GSB) (pb_interconnect : list MuxInstance) : list MuxSignature :=
  remove_dups (signature <$> device_muxes gsbs pb_interconnect).

End MuxLib.

(** ** A small device

    A concrete instance of the interfaces, on which the two commands can
    be run.  The routing annotation and the multiplexer library follow
    the description of the spec; the other structures are kept trivial. *)

Module Demo.

Fixpoint lookup_option (name : string) (given : list (string * string)) : option string :=
  match given with
  | [] => None
  | (n, value) :: rest => if decide (n = name) then Some value else lookup_option name rest
  end.

(** Options are identified by their name; the command context lists the
    options that were given, with their values. *)
#[export] Instance shell : Shell := {|
  Command := unit;
  CommandContext := list (string * string);
  CommandOptionId := string;
  cmd_option _ name := name;
  option_enable given _ name := bool_decide (is_Some (lookup_option name given));
  option_value given _ name := default "" (lookup_option name given);
|}.

(** The device is its routing-resource graph; the routing solution lists
    every net with the nodes of its path; the atom netlist is summed up
    by the delay of its critical path, and the clustering by whether its
    blocks can be packed. *)
#[export] Instance vpr : Vpr := {|
  DeviceContext := RRGraph;
  ClusteringContext := step_status;
  RoutingContext := list (nat * list nat);
  PlacementContext := unit;
  AtomContext := spec_float;
  rr_graph graph := graph;
|}.

#[export] Instance timing : TimingAnalysis := {|
  NetDelay := unit;
  load_net_delay_from_routing _ := tt;
  least_slack_critical_path_delay atom_ctx _ := atom_ctx;
|}.

#[export] Instance structures : Structures := {|
  CircuitLibrary := unit;
  ArchDirect := unit;
  VprDeviceAnnotation := unit;
  VprRoutingAnnotation := list (option nat);
  VprClusteringAnnotation := unit;
  VprPlacementAnnotation := unit;
  DeviceRRGSB := list MuxLib.GSB;
  MuxLibrary := MuxLib.MuxLibrary;
  TileDirect := unit;
|}.

(** Modelled from the spec: the routing annotation is initialised to the
    size of the graph, every node unoccupied. *)
Definition routing_annotation_init (annotation : list (option nat)) (graph : RRGraph) :
    list (option nat) :=
  replicate (length graph) None.

(** Modelled from the spec: for every net of the routing solution, the net
    is recorded at each node of its path.  The spec adds that the pass
    stops the run on a node shared by two nets; on a legal routing no
    entry is written twice. *)
Definition record_nets (routing_solution : list (nat * list nat))
    (annotation : list (option nat)) : list (option nat) :=
  foldl (λ ann net, foldl (λ ann node, <[node := Some net.1]> ann) ann net.2)
        annotation routing_solution.

#[export] Instance link_passes : LinkPasses := {|
  annotate_pb_types _ _ annotation _ := annotation;
  annotate_pb_graph _ annotation _ := annotation;
  annotate_rr_graph_circuit_models _ _ annotation _ := annotation;
  vpr_routing_annotation_init := routing_annotation_init;
  annotate_rr_node_nets _ _ routing_solution annotation _ :=
    record_nets routing_solution annotation;
  annotate_device_rr_gsb _ gsbs _ := gsbs;
  build_device_mux_library _ openfpga_ctx :=
    MuxLib.build_device_mux_library (device_rr_gsb openfpga_ctx) [];
  build_device_tile_direct _ _ := tt;
  annotate_mapped_blocks _ _ _ annotation := annotation;
|}.

#[export] Instance repack_passes : RepackPasses := {|
  pack_physical_pbs _ _ packable device_annotation clustering_annotation _ :=
    (device_annotation, clustering_annotation, packable);
  build_physical_lut_truth_tables clustering_annotation _ _ _ _ _ :=
    (clustering_annotation, StepSucceeded);
|}.

(** One bidirectional horizontal track between a source and a sink, and a
    net routed over it. *)
Definition graph : RRGraph :=
  [ mk_rr_node SOURCE NO_DIRECTION;
    mk_rr_node CHANX BI_DIRECTION;
    mk_rr_node SINK NO_DIRECTION ].

(** The [float] nearest to an integer. *)
Definition float_of_Z (n : Z) : spec_float :=
  binary_normalize Float.float_prec Float.float_emax n 0 false.

Definition g_vpr_ctx (packable : step_status) (critical_path_delay : spec_float) : VprContext :=
  {| device := graph;
     clustering := packable;
     routing := [(7, [0; 1; 2])];
     placement := tt;
     atom := critical_path_delay |}.

(** The same device with a uni-directional track. *)
Definition g_vpr_ctx_unidirectional (critical_path_delay : spec_float) : VprContext :=
  {| device := [mk_rr_node CHANX INC_DIRECTION; mk_rr_node IPIN NO_DIRECTION];
     clustering := StepSucceeded;
     routing := [(7, [0])];
     placement := tt;
     atom := critical_path_delay |}.

(** The command, and the command context built from the options given. *)
Definition cmd : Command := tt.

Definition cmd_context (given : list (string * string)) : CommandContext := given.

Definition settings (frequency : spec_float) : SimulationSetting :=
  {| operating_clock_frequency := frequency;
     operating_clock_frequency_slack := S754_zero false;
     num_clock_cycles := 2 |}.

(** Some [float] numbers: 3e38 (the [float] nearest to it), 1, 1/4 and
    -1. *)
Definition float_3e38 : spec_float := S754_finite false 14791142 104.
Definition float_1 : spec_float := S754_finite false 8388608 (-23).
Definition float_quarter : spec_float := S754_finite false 8388608 (-25).
Definition float_minus_1 : spec_float := S754_finite true 8388608 (-23).

Definition settings_with_slack (frequency slack : spec_float) : SimulationSetting :=
  {| operating_clock_frequency := frequency;
     operating_clock_frequency_slack := slack;
     num_clock_cycles := 2 |}.

Definition openfpga_ctx (frequency : spec_float) : OpenfpgaContext :=
  {| arch := {| circuit_lib := tt; sim_setting := settings frequency; arch_direct := tt |};
     vpr_device_annotation := tt;
     vpr_routing_annotation := [];
     vpr_clustering_annotation := tt;
     vpr_placement_annotation := tt;
     device_rr_gsb := [];
     mux_lib := [];
     tile_direct := tt |}.

(** A constraint file with two rules for the same pin. *)
Definition conflicting_file (name : string) : RepackDesignConstraints :=
  [ mk_RepackDesignConstraint "net_a" "clb.I[0]";
    mk_RepackDesignConstraint "net_b" "clb.I[0]" ].

(** Two tiles with the same switch-block structure: one two-input
    multiplexer each, on different nodes of the same classes. *)
Definition twin_tiles : list MuxLib.GSB :=
  [ MuxLib.mk_GSB (0, 0)%nat [ MuxLib.mk_MuxInstance [(10, 1); (11, 1)] (12, 2) 0 ];
    MuxLib.mk_GSB (1, 0)%nat [ MuxLib.mk_MuxInstance [(20, 1); (21, 1)] (22, 2) 0 ] ].

End Demo.

(** * Properties *)

(** ** The compatibility checker *)

Lemma is_vpr_rr_graph_supported_cons node rest :
  is_vpr_rr_graph_supported (node :: rest) =
  (negb (bool_decide (channel_node node) && bool_decide (node_direction node = BI_DIRECTION))
     && is_vpr_rr_graph_supported rest).
Proof.
  cbn [is_vpr_rr_graph_supported]. unfold channel_node.
  destruct node as [type direction]; cbn. by destruct type, direction.
Qed.

Lemma is_vpr_rr_graph_supported_true rr_graph :
  is_vpr_rr_graph_supported rr_graph = true ↔
  ∀ node, node ∈ rr_graph → channel_node node → node_direction node ≠ BI_DIRECTION.
Proof.
  induction rr_graph as [| node rest IH].
  - split; [intros _ node Hin | reflexivity]. by apply not_elem_of_nil in Hin.
  - rewrite is_vpr_rr_graph_supported_cons, andb_true_iff, IH. clear IH. split.
    + intros [Hhead Hrest] n Hin Hchan.
      apply elem_of_cons in Hin as [-> | Hin]; [| by apply Hrest].
      intros Hbi. rewrite !bool_decide_eq_true_2 in Hhead by done. discriminate.
    + intros Hall. split.
      * destruct (decide (channel_node node)) as [Hchan | Hchan].
        -- rewrite (bool_decide_eq_false_2 (node_direction node = _)), andb_false_r; [done |].
           apply Hall; [left | assumption].
        -- by rewrite (bool_decide_eq_false_2 (channel_node node)).
      * intros n Hin. apply Hall. by right.
Qed.

Lemma is_vpr_rr_graph_supported_false rr_graph :
  is_vpr_rr_graph_supported rr_graph = false ↔
  ∃ node, node ∈ rr_graph ∧ bidirectional_channel node.
Proof.
  induction rr_graph as [| node rest IH].
  - split; [discriminate |]. intros (n & Hin & _). by apply not_elem_of_nil in Hin.
  - rewrite is_vpr_rr_graph_supported_cons, andb_false_iff, IH. clear IH. split.
    + intros [Hhead | (n & Hin & Hbi)].
      * exists node. split; [left |].
        apply negb_false_iff, andb_true_iff in Hhead as [Hchan Hdir].
        split; [by apply bool_decide_eq_true in Hchan | by apply bool_decide_eq_true in Hdir].
      * exists n. split; [by right | assumption].
    + intros (n & Hin & Hchan & Hdir).
      apply elem_of_cons in Hin as [-> | Hin].
      * left. by rewrite !bool_decide_eq_true_2.
      * right. exists n. by repeat split.
Qed.

Lemma is_vpr_rr_graph_supported_filter rr_graph :
  is_vpr_rr_graph_supported (filter channel_node rr_graph) =
  is_vpr_rr_graph_supported rr_graph.
Proof.
  induction rr_graph as [| node rest IH]; [reflexivity |].
  rewrite filter_cons. destruct (decide (channel_node node)) as [Hchan | Hchan].
  - by rewrite !is_vpr_rr_graph_supported_cons, IH.
  - by rewrite is_vpr_rr_graph_supported_cons, IH,
      (bool_decide_eq_false_2 (channel_node node)).
Qed.

(** C5.  The checker accepts exactly the graphs without a bidirectional
    track.  It returns [true] if and only if no [CHANX]/[CHANY] node has
    the direction [BI_DIRECTION], hence whenever every track is
    uni-directional; it returns [false] if and only if some track is
    bidirectional; and two graphs with the same tracks get the same
    answer, whatever their other nodes are. *)
Theorem is_vpr_rr_graph_supported_correct (rr_graph : RRGraph) :
  (is_vpr_rr_graph_supported rr_graph = true ↔
     ∀ node, node ∈ rr_graph → channel_node node →
             node_direction node ≠ BI_DIRECTION) ∧
  ((∀ node, node ∈ rr_graph → channel_node node → uni_directional node) →
     is_vpr_rr_graph_supported rr_graph = true) ∧
  (is_vpr_rr_graph_supported rr_graph = false ↔
     ∃ node, node ∈ rr_graph ∧ bidirectional_channel node) ∧
  (∀ other : RRGraph,
     filter channel_node other = filter channel_node rr_graph →
     is_vpr_rr_graph_supported other = is_vpr_rr_graph_supported rr_graph).
Proof.
  split; [apply is_vpr_rr_graph_supported_true |].
  split; [| split; [apply is_vpr_rr_graph_supported_false |]].
  - intros Huni. apply is_vpr_rr_graph_supported_true.
    intros node Hin Hchan Hbi.
    destruct (Huni node Hin Hchan) as [Hdir | Hdir]; congruence.
  - intros other Heq.
    rewrite <- (is_vpr_rr_graph_supported_filter other), Heq.
    apply is_vpr_rr_graph_supported_filter.
Qed.

(** ** The simulation settings *)

Lemma Float_eqb_zero x : Float.eqb Float.zero x = true ↔ Float.is_zero x.
Proof.
  unfold Float.eqb, Float.zero, Float.is_zero. split.
  - destruct x as [s | s | | s m e]; [eauto | | |];
      try destruct s; discriminate.
  - intros [s ->]. reflexivity.
Qed.

Lemma Float_eqb_zero_finite s m e : Float.eqb Float.zero (S754_finite s m e) = false.
Proof. by destruct s. Qed.

Lemma Float_eqb_zero_false x : Float.eqb Float.zero x = false ↔ ¬ Float.is_zero x.
Proof.
  rewrite <- Float_eqb_zero. destruct (Float.eqb Float.zero x); split; intros Hx;
    [discriminate | by destruct Hx | discriminate | reflexivity].
Qed.

(** ** Rounding

    Every operation of the computation of the frequency ends in
    [binary_round_aux].  A finite result of it is within one unit in the
    last place of the number that was rounded; so a result whose mantissa
    is at least [P] is within the factor [P / (P - 1)] of that number. *)

Section RoundingIntegers.
Local Open Scope Z_scope.

Lemma shr_1_div2 mrs : 0 ≤ shr_m mrs → shr_m (shr_1 mrs) = Z.shiftr (shr_m mrs) 1.
Proof.
  destruct mrs as [m r s]. cbn. intros Hm.
  rewrite <- Z.div2_spec. destruct m as [| [p | p |] | p]; try reflexivity; lia.
Qed.

Lemma shr_1_nonneg mrs : 0 ≤ shr_m mrs → 0 ≤ shr_m (shr_1 mrs).
Proof.
  intros Hm. rewrite shr_1_div2 by done. by apply Z.shiftr_nonneg.
Qed.

Lemma iter_pos_shr_1 p : ∀ mrs,
  0 ≤ shr_m mrs → shr_m (SpecFloat.iter_pos shr_1 p mrs) = Z.shiftr (shr_m mrs) (Z.pos p).
Proof.
  induction p as [p IH | p IH |]; intros mrs Hm; cbn [SpecFloat.iter_pos].
  - rewrite !IH, shr_1_div2, !Z.shiftr_shiftr by
      (try apply Z.shiftr_nonneg; try rewrite shr_1_div2; try rewrite IH;
       try apply Z.shiftr_nonneg; try rewrite shr_1_div2; try apply Z.shiftr_nonneg; try done; lia).
    f_equal. lia.
  - rewrite !IH, !Z.shiftr_shiftr by
      (try rewrite IH; try apply Z.shiftr_nonneg; try done; lia).
    f_equal. lia.
  - by apply shr_1_div2.
Qed.

Lemma shr_fexp_spec prec emax m e l mrs e' :
  0 ≤ m → shr_fexp prec emax m e l = (mrs, e') →
  ∃ n, 0 ≤ n ∧ e' = e + n ∧ shr_m mrs = Z.div m (2 ^ n).
Proof.
  intros Hm. unfold shr_fexp, shr.
  assert (Hrec : shr_m (shr_record_of_loc m l) = m) by (by destruct l as [| []]).
  destruct (fexp prec emax (Zdigits2 m + e) - e) as [| n | n] eqn:Hn; intros [= <- <-].
  - exists 0. rewrite Hrec, Z.div_1_r. lia.
  - exists (Z.pos n). rewrite iter_pos_shr_1, Hrec by (rewrite Hrec; done).
    rewrite Z.shiftr_div_pow2 by lia. lia.
  - exists 0. rewrite Hrec, Z.div_1_r. lia.
Qed.

Lemma round_nearest_even_bounds m l : m ≤ round_nearest_even m l ≤ m + 1.
Proof.
  destruct l as [| []]; cbn; try lia. destruct (Z.even m); lia.
Qed.

Lemma binary_round_aux_finite prec emax sx mx ex lx s m e :
  0 ≤ mx →
  binary_round_aux prec emax sx mx ex lx = S754_finite s m e →
  s = sx ∧ ∃ N, 0 ≤ N ∧ e = ex + N ∧
    (Z.pos m - 1) * 2 ^ N ≤ mx ∧ mx + 1 ≤ (Z.pos m + 1) * 2 ^ N.
Proof.
  intros Hmx. unfold binary_round_aux.
  destruct (shr_fexp prec emax mx ex lx) as [mrs1 e1] eqn:H1.
  destruct (shr_fexp prec emax _ e1 loc_Exact) as [mrs2 e2] eqn:H2.
  apply shr_fexp_spec in H1 as (n1 & Hn1 & -> & Hm1); [| done].
  pose proof (round_nearest_even_bounds (shr_m mrs1) (loc_of_shr_record mrs1)) as Hrne.
  assert (H0 : 0 ≤ shr_m mrs1) by (rewrite Hm1; apply Z.div_pos; lia).
  apply shr_fexp_spec in H2 as (n2 & Hn2 & -> & Hm2); [| lia].
  destruct (shr_m mrs2) as [| m2 |] eqn:Hres; try discriminate.
  destruct (ex + n1 + n2 <=? emax - prec); intros [= <- <- <-].
  split; [reflexivity |]. exists (n1 + n2). split; [lia |]. split; [lia |].
  rewrite Z.pow_add_r by lia.
  set (m1 := round_nearest_even (shr_m mrs1) (loc_of_shr_record mrs1)) in *.
  assert (Hp1 : 0 < 2 ^ n1) by (apply Z.pow_pos_nonneg; lia).
  assert (Hp2 : 0 < 2 ^ n2) by (apply Z.pow_pos_nonneg; lia).
  pose proof (Z.div_mod mx (2 ^ n1) ltac:(lia)) as Hd1.
  pose proof (Z.mod_pos_bound mx (2 ^ n1) Hp1) as Hb1.
  pose proof (Z.div_mod m1 (2 ^ n2) ltac:(lia)) as Hd2.
  pose proof (Z.mod_pos_bound m1 (2 ^ n2) Hp2) as Hb2.
  rewrite <- Hm1 in Hd1. rewrite <- Hm2 in Hd2.
  split; nia.
Qed.

End RoundingIntegers.

Section RoundingRationals.
Local Open Scope Q_scope.


Lemma within_factor_sym k x y : within_factor k x y → within_factor k y x.
Proof. unfold within_factor. tauto. Qed.

Lemma within_factor_trans k1 k2 x y z :
  within_factor k1 x y → within_factor k2 y z → 1 <= k1 → 1 <= k2 →
  within_factor (k1 * k2) x z.
Proof.
  unfold within_factor. intros (Hx & Hy & Hxy & Hyx) (_ & Hz & Hyz & Hzy) Hk1 Hk2.
  repeat split; try assumption; nra.
Qed.

Lemma within_factor_mult k1 k2 x y u v :
  within_factor k1 x y → within_factor k2 u v → 1 <= k1 → 1 <= k2 →
  within_factor (k1 * k2) (x * u) (y * v).
Proof.
  unfold within_factor. intros (Hx & Hy & Hxy & Hyx) (Hu & Hv & Huv & Hvu) Hk1 Hk2.
  repeat split; try nra.
Qed.

Lemma within_factor_one_plus k x y : 1 <= k → within_factor k x y → within_factor k (1 + x) (1 + y).
Proof.
  unfold within_factor. intros Hk (Hx & Hy & Hxy & Hyx). repeat split; nra.
Qed.

Lemma within_factor_weaken k k' x y : k <= k' → within_factor k x y → within_factor k' x y.
Proof.
  unfold within_factor. intros Hk (Hx & Hy & Hxy & Hyx). repeat split; try assumption; nra.
Qed.

Lemma within_factor_one k x : 1 <= k → within_factor k x 1 → Qabs (x - 1) <= k - 1.
Proof.
  unfold within_factor. intros Hk (Hx & _ & Hx1 & H1x).
  apply Qabs_Qle_condition. split; nra.
Qed.

Lemma pow2_pos e : 0 < 2 ^ e.
Proof. by apply Qpower_0_lt. Qed.

Lemma pow2_plus e n : 2 ^ (e + n) == 2 ^ e * 2 ^ n.
Proof. by apply Qpower_plus. Qed.

Lemma pow2_Z n : (0 ≤ n)%Z → 2 ^ n == inject_Z (2 ^ n).
Proof. intros Hn. by rewrite Zpower_Qpower. Qed.

Lemma between_multiples_exact mx ex : between_multiples mx ex (inject_Z mx * 2 ^ ex).
Proof.
  split; [apply Qle_refl |]. apply Qmult_le_compat_r; [| apply Qlt_le_weak, pow2_pos].
  rewrite <- Zle_Qle. lia.
Qed.

Lemma between_multiples_rounded (m mx ex N : Z) v :
  (0 ≤ N)%Z → (m * 2 ^ N ≤ mx + 2 ^ N)%Z → (mx + 1 ≤ m * 2 ^ N + 2 ^ N)%Z →
  between_multiples mx ex v →
  inject_Z m * 2 ^ (ex + N) <= v + 2 ^ (ex + N) ∧
  v <= inject_Z m * 2 ^ (ex + N) + 2 ^ (ex + N).
Proof.
  intros HN Hlo Hhi [Hv1 Hv2].
  pose proof (pow2_pos ex) as Hex.
  rewrite pow2_plus, (pow2_Z N) by done.
  rewrite Zle_Qle in Hlo, Hhi.
  rewrite inject_Z_plus, inject_Z_mult in Hlo.
  rewrite !inject_Z_plus, inject_Z_mult in Hhi.
  rewrite inject_Z_plus in Hv2.
  change (inject_Z 1) with 1 in *.
  set (M := inject_Z m) in *. set (X := inject_Z mx) in *.
  set (t := 2 ^ ex) in *. set (p := inject_Z (2 ^ N)) in *.
  split; nra.
Qed.

(** a number within one unit in the last place of a mantissa of at least
    [P] is within the factor [P / (P - 1)] *)
Lemma within_factor_of_multiples (P m e : Z) v :
  (2 ≤ P)%Z → (P ≤ m)%Z →
  inject_Z m * 2 ^ e <= v + 2 ^ e → v <= inject_Z m * 2 ^ e + 2 ^ e →
  within_factor (inject_Z P / (inject_Z P - 1)) (inject_Z m * 2 ^ e) v.
Proof.
  intros HP Hm Hlo Hhi. pose proof (pow2_pos e) as He.
  rewrite Zle_Qle in HP, Hm.
  change (inject_Z 2) with 2 in HP.
  set (M := inject_Z m) in *. set (p := inject_Z P) in *. set (t := 2 ^ e) in *.
  assert (Hk : (p / (p - 1)) * (p - 1) == p) by (field; lra).
  set (k := p / (p - 1)) in *.
  assert (Hk1 : 1 <= k) by nra.
  assert (Hk2 : (k - 1) * p == k) by nra.
  assert (Hu : p * t <= M * t) by nra.
  set (u := M * t) in *.
  assert (Hku : (k - 1) * (p * t) <= (k - 1) * u) by nra.
  assert (Hkt : k * t == (k - 1) * (p * t)) by nra.
  assert (Hv : t <= v) by nra.
  unfold within_factor. repeat split; nra.
Qed.

Lemma between_multiples_eq mx ex v v' : v == v' → between_multiples mx ex v → between_multiples mx ex v'.
Proof.
  intros Heq [H1 H2]. split.
  - eapply Qle_trans; [exact H1 |]. apply Qle_lteq. by right.
  - eapply Qle_trans; [| exact H2]. apply Qle_lteq. right. by symmetry.
Qed.

Lemma within_factor_eq k x y y' : y == y' → within_factor k x y → within_factor k x y'.
Proof.
  intros Heq Hclose. unfold within_factor in *. rewrite <- Heq. exact Hclose.
Qed.

Lemma within_factor_eq_l k x x' y : x == x' → within_factor k x y → within_factor k x' y.
Proof.
  intros Heq Hclose. unfold within_factor in *. rewrite <- Heq. exact Hclose.
Qed.

Lemma binary_round_aux_within_factor prec emax mx ex lx s m e v P :
  (0 ≤ mx)%Z →
  binary_round_aux prec emax false mx ex lx = S754_finite s m e →
  (2 ≤ P)%Z → (P ≤ Z.pos m)%Z →
  between_multiples mx ex v →
  s = false ∧ within_factor (rounding_factor P) (Float.to_Q (S754_finite s m e)) v.
Proof.
  intros Hmx Hround HP Hm Hv.
  apply binary_round_aux_finite in Hround as (-> & N & HN & -> & Hlo & Hhi); [| done].
  split; [reflexivity |]. cbn [Float.to_Q cond_Zopp].
  apply within_factor_of_multiples; try done;
    apply (between_multiples_rounded (Z.pos m) mx ex N v); try done; lia.
Qed.

Lemma iter_xO_value mx d : Z.pos (Pos.iter xO mx d) = (Z.pos mx * 2 ^ Z.pos d)%Z.
Proof.
  induction d as [| d IH] using Pos.peano_ind.
  - cbn. lia.
  - rewrite Pos.iter_succ, Pos2Z.inj_succ, Z.pow_succ_r by lia.
    rewrite Pos2Z.inj_xO, IH. lia.
Qed.

Lemma shl_align_value mx ex ex' :
  inject_Z (Z.pos (fst (shl_align mx ex ex'))) * 2 ^ snd (shl_align mx ex ex') ==
  inject_Z (Z.pos mx) * 2 ^ ex.
Proof.
  unfold shl_align. destruct (ex' - ex)%Z as [| d | d] eqn:Hd; cbn [fst snd];
    try reflexivity.
  rewrite iter_xO_value, inject_Z_mult, <- pow2_Z by lia.
  replace ex with (ex' + Z.pos d)%Z by lia. rewrite pow2_plus. ring.
Qed.

Lemma shl_align_exponent mx ex ex' :
  (ex' ≤ ex)%Z → snd (shl_align mx ex ex') = ex'.
Proof.
  intros Hle. unfold shl_align. destruct (ex' - ex)%Z as [| d | d] eqn:Hd; cbn [snd]; lia.
Qed.

Lemma binary_round_within_factor prec emax mx ex s m e P :
  binary_round prec emax false mx ex = S754_finite s m e →
  (2 ≤ P)%Z → (P ≤ Z.pos m)%Z →
  s = false ∧
  within_factor (rounding_factor P) (Float.to_Q (S754_finite s m e)) (inject_Z (Z.pos mx) * 2 ^ ex).
Proof.
  unfold binary_round. intros Hround HP Hm.
  pose proof (shl_align_value mx ex
                (fexp prec emax (Z.pos (digits2_pos mx) + ex))) as Hval.
  destruct (shl_align mx ex _) as [mz ez]. cbn [fst snd] in Hval.
  apply (binary_round_aux_within_factor _ _ _ _ _ _ _ _ (inject_Z (Z.pos mx) * 2 ^ ex) P)
    in Hround as [-> Hclose];
    [| lia | exact HP | exact Hm
     | eapply between_multiples_eq; [exact Hval | apply between_multiples_exact]].
  split; [reflexivity | exact Hclose].
Qed.

Lemma SFmul_within_factor prec emax mx ex my ey s m e P :
  SFmul prec emax (S754_finite false mx ex) (S754_finite false my ey) = S754_finite s m e →
  (2 ≤ P)%Z → (P ≤ Z.pos m)%Z →
  s = false ∧
  within_factor (rounding_factor P) (Float.to_Q (S754_finite s m e))
    (Float.to_Q (S754_finite false mx ex) * Float.to_Q (S754_finite false my ey)).
Proof.
  cbn [SFmul xorb Float.to_Q cond_Zopp]. intros Hround HP Hm.
  apply (binary_round_aux_within_factor _ _ _ _ _ _ _ _
           (inject_Z (Z.pos mx) * 2 ^ ex * (inject_Z (Z.pos my) * 2 ^ ey)) P)
    in Hround as [-> Hclose];
    [| lia | exact HP | exact Hm
     | eapply between_multiples_eq; [| apply between_multiples_exact];
       rewrite Pos2Z.inj_mul, inject_Z_mult, pow2_plus; ring].
  split; [reflexivity | exact Hclose].
Qed.

Lemma SFadd_within_factor prec emax mx ex my ey s m e P :
  SFadd prec emax (S754_finite false mx ex) (S754_finite false my ey) = S754_finite s m e →
  (2 ≤ P)%Z → (P ≤ Z.pos m)%Z →
  s = false ∧
  within_factor (rounding_factor P) (Float.to_Q (S754_finite s m e))
    (Float.to_Q (S754_finite false mx ex) + Float.to_Q (S754_finite false my ey)).
Proof.
  cbn [SFadd Float.to_Q cond_Zopp]. intros Hround HP Hm.
  pose proof (shl_align_value mx ex (Z.min ex ey)) as Hx.
  pose proof (shl_align_value my ey (Z.min ex ey)) as Hy.
  rewrite shl_align_exponent in Hx, Hy by lia.
  destruct (shl_align mx ex (Z.min ex ey)) as [mx' ex'].
  destruct (shl_align my ey (Z.min ex ey)) as [my' ey'].
  cbn [fst snd binary_normalize Z.add] in *.
  apply binary_round_within_factor with (P := P) in Hround as [-> Hclose];
    [| exact HP | exact Hm].
  split; [reflexivity |]. 
  assert (Heq : inject_Z (Z.pos (mx' + my')) * 2 ^ Z.min ex ey ==
                inject_Z (Z.pos mx) * 2 ^ ex + inject_Z (Z.pos my) * 2 ^ ey).
  { rewrite <- Hx, <- Hy, Pos2Z.inj_add, inject_Z_plus. ring. }
  eapply within_factor_eq; [exact Heq | exact Hclose].
Qed.

Lemma SFdiv_core_binary_spec prec emax m1 e1 m2 e2 q e' l :
  (0 < m1)%Z → (0 < m2)%Z →
  SFdiv_core_binary prec emax m1 e1 m2 e2 = (q, e', l) →
  (0 ≤ q)%Z ∧
  ∃ s, (0 ≤ s)%Z ∧ e1 = (e2 + e' + s)%Z ∧
       (q * m2 ≤ m1 * 2 ^ s)%Z ∧ (m1 * 2 ^ s ≤ (q + 1) * m2)%Z.
Proof.
  intros Hm1 Hm2. unfold SFdiv_core_binary.
  set (e0 := Z.min _ (e1 - e2)%Z).
  assert (He0 : (e0 ≤ e1 - e2)%Z) by apply Z.le_min_r.
  set (s := (e1 - e2 - e0)%Z).
  assert (Hs : (0 ≤ s)%Z) by (unfold s; lia).
  set (m' := match s with Z.pos _ => Z.shiftl m1 s | 0%Z => m1 | Z.neg _ => 0%Z end).
  assert (Hm' : m' = (m1 * 2 ^ s)%Z).
  { unfold m'. destruct s as [| p | p] eqn:Hsp; [lia | | lia].
    by rewrite Z.shiftl_mul_pow2. }
  pose proof (Z_div_mod m' m2 ltac:(lia)) as Hdiv.
  destruct (Z.div_eucl m' m2) as [q0 r0]. intros [= <- <- <-].
  destruct Hdiv as [Hdiv Hr]. rewrite Hm' in Hdiv.
  assert (Hp : (0 < 2 ^ s)%Z) by (apply Z.pow_pos_nonneg; lia).
  split; [nia |]. exists s. split; [done |]. split; [unfold s; lia |]. split; nia.
Qed.

Lemma SFdiv_within_factor prec emax mx ex my ey s m e P v :
  SFdiv prec emax (S754_finite false mx ex) (S754_finite false my ey) = S754_finite s m e →
  (2 ≤ P)%Z → (P ≤ Z.pos m)%Z →
  v * Float.to_Q (S754_finite false my ey) == Float.to_Q (S754_finite false mx ex) →
  s = false ∧ within_factor (rounding_factor P) (Float.to_Q (S754_finite s m e)) v.
Proof.
  cbn [SFdiv xorb Float.to_Q cond_Zopp]. intros Hround HP Hm Hv.
  destruct (SFdiv_core_binary prec emax (Z.pos mx) ex (Z.pos my) ey)
    as [[mz ez] lz] eqn:Hcore.
  apply SFdiv_core_binary_spec in Hcore as (Hmz & d & Hd & -> & Hlo & Hhi); [| lia ..].
  apply (binary_round_aux_within_factor _ _ _ _ _ _ _ _ v P) in Hround as [-> Hclose];
    [split; [reflexivity | exact Hclose] | exact Hmz | exact HP | exact Hm |].
  rewrite Zle_Qle in Hlo, Hhi.
  rewrite !inject_Z_mult, <- pow2_Z in Hlo, Hhi by done.
  rewrite inject_Z_plus in Hhi. change (inject_Z 1) with 1 in Hhi.
  rewrite !pow2_plus in Hv.
  pose proof (pow2_pos ey) as Hb. pose proof (pow2_pos ez) as Ha.
  pose proof (pow2_pos d) as Hp.
  assert (HM2 : 0 < inject_Z (Z.pos my)) by (rewrite <- (Zlt_Qlt 0); lia).
  unfold between_multiples. rewrite inject_Z_plus. change (inject_Z 1) with 1.
  set (M1 := inject_Z (Z.pos mx)) in *. set (M2 := inject_Z (Z.pos my)) in *.
  set (q := inject_Z mz) in *.
  set (a := 2 ^ ez) in *. set (b := 2 ^ ey) in *. set (p := 2 ^ d) in *.
  assert (Hab : 0 < a * b) by nra.
  assert (Hlo' : q * M2 * (a * b) <= M1 * p * (a * b)) by nra.
  assert (Hhi' : M1 * p * (a * b) <= (q + 1) * M2 * (a * b)) by nra.
  assert (HY : 0 < M2 * b) by nra.
  split; nra.
Qed.

End RoundingRationals.

Section DerivedFrequency.
Local Open Scope Q_scope.

Lemma normalb_finite prec x :
  Float.normalb prec x = true →
  ∃ s m e, x = S754_finite s m e ∧ (2 ^ (prec - 1) ≤ Z.pos m)%Z.
Proof.
  destruct x as [| | | s m e]; try discriminate. cbn. intros Hm.
  apply Z.leb_le in Hm. eauto.
Qed.

Lemma rounding_factor_ge_1 P : (2 ≤ P)%Z → 1 <= rounding_factor P.
Proof.
  intros HP. rewrite Zle_Qle in HP. change (inject_Z 2) with 2 in HP.
  unfold rounding_factor. apply Qle_shift_div_l; lra.
Qed.

Lemma one_le_mult a b : 1 <= a → 1 <= b → 1 <= a * b.
Proof. intros Ha Hb. nra. Qed.

Lemma within_factor_refl k x : 0 < x → 1 <= k → within_factor k x x.
Proof. intros Hx Hk. unfold within_factor. repeat split; nra. Qed.

Lemma one_double_value :
  Float.one_double = S754_finite false 4503599627370496 (-52).
Proof. reflexivity. Qed.

Lemma one_float_value : Float.one_float = S754_finite false 8388608 (-23).
Proof. reflexivity. Qed.

(** The conversion of a positive number into a format. *)
Lemma round_to_within_factor prec emax m e :
  (2 ≤ 2 ^ (prec - 1))%Z →
  Float.normalb prec (Float.round_to prec emax (S754_finite false m e)) = true →
  Float.positive_finite (Float.round_to prec emax (S754_finite false m e)) ∧
  within_factor (rounding_factor (2 ^ (prec - 1)))
    (Float.to_Q (Float.round_to prec emax (S754_finite false m e)))
    (Float.to_Q (S754_finite false m e)).
Proof.
  intros HP Hnormal. apply normalb_finite in Hnormal as (s' & m' & e' & Heq & Hm').
  rewrite Heq. cbn [Float.round_to] in Heq.
  apply binary_round_within_factor with (P := (2 ^ (prec - 1))%Z) in Heq as [-> Hclose];
    [| exact HP | exact Hm'].
  split; [by eexists _, _ | exact Hclose].
Qed.

Lemma to_Q_positive x : Float.positive_finite x → 0 < Float.to_Q x.
Proof.
  intros (m & e & ->). cbn [Float.to_Q cond_Zopp].
  apply Qmult_lt_0_compat; [| apply pow2_pos]. rewrite <- (Zlt_Qlt 0). lia.
Qed.

Lemma to_Q_nonnegative x : Float.nonnegative_finite x → 0 <= Float.to_Q x.
Proof.
  intros [[s ->] | Hpos]; [apply Qle_refl |]. by apply Qlt_le_weak, to_Q_positive.
Qed.

(** The sum [1. + s] of line 86. *)
Lemma sum_within_factor s :
  Float.nonnegative_finite s →
  match s with
  | S754_zero _ => true
  | _ => Float.normalb Float.double_prec (Float.to_double s)
  end = true →
  Float.normalb Float.double_prec
    (Float.add_double Float.one_double (Float.to_double s)) = true →
  Float.positive_finite (Float.add_double Float.one_double (Float.to_double s)) ∧
  within_factor
    (rounding_factor (2 ^ (Float.double_prec - 1)) *
     rounding_factor (2 ^ (Float.double_prec - 1)))
    (Float.to_Q (Float.add_double Float.one_double (Float.to_double s)))
    (1 + Float.to_Q s).
Proof.
  pose proof (rounding_factor_ge_1 (2 ^ (Float.double_prec - 1)) ltac:(done)) as Hk.
  intros [[sg ->] | (ms & es & ->)] Hsd Hsum.
  - split; [by eexists _, _ |].
    apply (within_factor_eq_l _ 1); [reflexivity |].
    apply (within_factor_eq _ _ 1); [reflexivity |].
    apply within_factor_refl; [reflexivity | nra].
  - apply round_to_within_factor in Hsd as [(md & ed & Hd) Hclose]; [| done].
    unfold Float.to_double in *. rewrite Hd in *.
    apply normalb_finite in Hsum as (s' & m' & e' & Heq & Hm').
    rewrite Heq. rewrite one_double_value in Heq. unfold Float.add_double in Heq.
    apply SFadd_within_factor with (P := (2 ^ (Float.double_prec - 1))%Z) in Heq
      as [-> Hadd]; [| done | exact Hm'].
    split; [by eexists _, _ |].
    eapply within_factor_trans; [exact Hadd | | lra | lra].
    eapply within_factor_eq_l; [| apply within_factor_one_plus; [exact Hk | exact Hclose]].
    apply Qplus_comp; reflexivity.
Qed.

(** The frequency of line 87 against the exact quotient. *)
Lemma derived_frequency_within_factor T s :
  Float.positive_finite T → Float.nonnegative_finite s →
  derivation_in_range T s = true →
  within_factor frequency_factor
    (Float.to_Q (derived_frequency T s) * (Float.to_Q T * (1 + Float.to_Q s))) 1.
Proof.
  pose proof (rounding_factor_ge_1 (2 ^ (Float.double_prec - 1)) ltac:(done)) as Hk64.
  pose proof (rounding_factor_ge_1 (2 ^ (Float.float_prec - 1)) ltac:(done)) as Hk32.
  intros (mT & eT & ->) Hs Hrange.
  unfold derived_frequency, derivation_in_range in *. cbv zeta in Hrange.
  repeat rewrite andb_true_iff in Hrange.
  destruct Hrange as (((((H1 & H2) & H3) & H4) & H5) & H6).
  destruct (sum_within_factor s Hs H2 H3) as [(m3 & e3 & Hsum) Hcs].
  unfold Float.to_double in H1.
  apply round_to_within_factor in H1 as [(m1 & e1 & HTd) HcT]; [| done].
  unfold Float.to_double in *. rewrite HTd, Hsum in *.
  pose proof H4 as H4'.
  apply normalb_finite in H4' as (s4 & m4 & e4 & Hprod & Hm4).
  rewrite Hprod in *. unfold Float.mul_double in Hprod.
  apply SFmul_within_factor with (P := (2 ^ (Float.double_prec - 1))%Z) in Hprod
    as [-> Hcp]; [| done | exact Hm4].
  unfold Float.to_float in *.
  apply round_to_within_factor in H5 as [(m5 & e5 & HTc) Hcc]; [| done].
  rewrite HTc in *.
  apply normalb_finite in H6 as (s6 & m6 & e6 & Hf & Hm6).
  rewrite Hf. rewrite one_float_value in Hf. unfold Float.div_float in Hf.
  assert (HTc_pos : 0 < Float.to_Q (S754_finite false m5 e5))
    by (apply to_Q_positive; by eexists _, _).
  apply SFdiv_within_factor
    with (P := (2 ^ (Float.float_prec - 1))%Z)
         (v := / Float.to_Q (S754_finite false m5 e5)) in Hf as [-> Hcf];
    [| done | exact Hm6
     | rewrite Qmult_comm, Qmult_inv_r by lra; reflexivity].
  assert (Hk2 := one_le_mult _ _ Hk64 Hk64).
  assert (Hk3 := one_le_mult _ _ Hk64 Hk2).
  assert (Hk4 := one_le_mult _ _ Hk64 Hk3).
  assert (Hk5 := one_le_mult _ _ Hk32 Hk4).
  pose proof (within_factor_mult _ _ _ _ _ _ HcT Hcs Hk64 Hk2) as Hc1.
  pose proof (within_factor_trans _ _ _ _ _ Hcp Hc1 Hk64 Hk3) as Hc2.
  pose proof (within_factor_trans _ _ _ _ _ Hcc Hc2 Hk32 Hk4) as Hc3.
  apply within_factor_sym in Hc3.
  pose proof (within_factor_mult _ _ _ _ _ _ Hcf Hc3 Hk32 Hk5) as Hc4.
  eapply within_factor_eq; [| exact Hc4].
  rewrite Qmult_comm, Qmult_inv_r by lra. reflexivity.
Qed.

Lemma frequency_factor_tolerance :
  1 <= frequency_factor ∧ frequency_factor - 1 <= frequency_tolerance.
Proof. split; vm_compute; discriminate. Qed.

End DerivedFrequency.

Section SimulationFacts.
Context `{Vpr, !TimingAnalysis}.

Variable g_vpr_ctx : VprContext.

Lemma annotate_simulation_setting_sentinel_run atom_ctx (sim_setting : SimulationSetting) :
  Float.eqb Float.zero (operating_clock_frequency sim_setting) = true →
  annotate_simulation_setting g_vpr_ctx atom_ctx sim_setting =
    (tt,
     set_operating_clock_frequency
       (derived_frequency
          (least_slack_critical_path_delay atom_ctx (load_net_delay_from_routing g_vpr_ctx))
          (operating_clock_frequency_slack sim_setting))
       sim_setting,
     [Call_load_net_delay_from_routing; Call_timing_info_update]).
Proof.
  intros Hzero. unfold annotate_simulation_setting, mbind, Exec_bind, get_member.
  rewrite Hzero. reflexivity.
Qed.

Lemma annotate_simulation_setting_configured_run atom_ctx (sim_setting : SimulationSetting) :
  Float.eqb Float.zero (operating_clock_frequency sim_setting) = false →
  annotate_simulation_setting g_vpr_ctx atom_ctx sim_setting = (tt, sim_setting, []).
Proof.
  intros Hzero. unfold annotate_simulation_setting, mbind, Exec_bind, get_member.
  rewrite Hzero. reflexivity.
Qed.

(** C6, as amended.  When the stored frequency is the sentinel, the delay
    [T] that the timing analysis reports is a positive finite number, the
    slack [s] is a finite number that is not negative, and no step of the
    computation of lines 86-87 overflows or underflows, the frequency [f]
    that the annotator stores is [1 / (T * (1 + s))] within floating-point
    tolerance: [|f * (T * (1 + s)) - 1| <= 2^-21]. *)
Theorem annotate_simulation_setting_frequency_within_tolerance
    atom_ctx (sim_setting : SimulationSetting) :
  Float.eqb Float.zero (operating_clock_frequency sim_setting) = true →
  Float.positive_finite
    (least_slack_critical_path_delay atom_ctx (load_net_delay_from_routing g_vpr_ctx)) →
  Float.nonnegative_finite (operating_clock_frequency_slack sim_setting) →
  derivation_in_range
    (least_slack_critical_path_delay atom_ctx (load_net_delay_from_routing g_vpr_ctx))
    (operating_clock_frequency_slack sim_setting) = true →
  (Qabs
     (Float.to_Q
        (operating_clock_frequency
           (final (annotate_simulation_setting g_vpr_ctx atom_ctx sim_setting)))
      * (Float.to_Q
           (least_slack_critical_path_delay atom_ctx
              (load_net_delay_from_routing g_vpr_ctx))
         * (1 + Float.to_Q (operating_clock_frequency_slack sim_setting)))
      - 1)
   <= frequency_tolerance)%Q.
Proof.
  intros Hzero HT Hs Hrange.
  rewrite annotate_simulation_setting_sentinel_run by done.
  cbn [final fst snd operating_clock_frequency set_operating_clock_frequency].
  destruct frequency_factor_tolerance as [Hge Htol].
  eapply Qle_trans; [| exact Htol].
  apply within_factor_one; [exact Hge |].
  by apply derived_frequency_within_factor.
Qed.

(** C7.  A setting whose frequency does not compare equal to [0.] is
    returned as it was given, every member included, and no call is
    made. *)
Theorem annotate_simulation_setting_keeps_configured
    atom_ctx (sim_setting : SimulationSetting) :
  Float.eqb Float.zero (operating_clock_frequency sim_setting) = false →
  final (annotate_simulation_setting g_vpr_ctx atom_ctx sim_setting) = sim_setting ∧
  calls (annotate_simulation_setting g_vpr_ctx atom_ctx sim_setting) = [].
Proof.
  intros Hzero.
  by rewrite annotate_simulation_setting_configured_run.
Qed.

(** C9.  The sentinel is the value zero: the timing analysis is run if
    and only if the stored frequency is a zero; a frequency that is not a
    zero is left as it is, and so is in particular every finite non-zero
    frequency, negative ones included. *)
Theorem annotate_simulation_setting_sentinel_is_zero
    atom_ctx (sim_setting : SimulationSetting) :
  (Call_timing_info_update ∈ calls (annotate_simulation_setting g_vpr_ctx atom_ctx sim_setting)
     ↔ Float.is_zero (operating_clock_frequency sim_setting)) ∧
  (¬ Float.is_zero (operating_clock_frequency sim_setting) →
     annotate_simulation_setting g_vpr_ctx atom_ctx sim_setting = (tt, sim_setting, [])) ∧
  (∀ negative m e,
     operating_clock_frequency sim_setting = S754_finite negative m e →
     final (annotate_simulation_setting g_vpr_ctx atom_ctx sim_setting) = sim_setting).
Proof.
  split; [| split].
  - rewrite <- Float_eqb_zero.
    destruct (Float.eqb Float.zero (operating_clock_frequency sim_setting)) eqn:Hzero.
    + rewrite annotate_simulation_setting_sentinel_run by done.
      split; [done |]. intros _. cbn. apply elem_of_cons. right. apply elem_of_cons. by left.
    + rewrite annotate_simulation_setting_configured_run by done.
      split; [| done]. cbn. intros Hin. by apply not_elem_of_nil in Hin.
  - intros Hnz. apply annotate_simulation_setting_configured_run.
    by apply Float_eqb_zero_false.
  - intros negative m e Hfreq.
    rewrite annotate_simulation_setting_configured_run; [done |].
    rewrite Hfreq. apply Float_eqb_zero_finite.
Qed.

End SimulationFacts.

(** ** The link command *)

Lemma runs_beforeb_sound a b tr : runs_beforeb a b tr = true → runs_before a b tr.
Proof.
  induction tr as [| c rest IH]; intros Hb pre post Heq.
  - by destruct pre.
  - cbn in Hb. destruct (decide (c = b)) as [| Hcb]; [discriminate |].
    destruct pre as [| c' pre']; cbn in Heq; simplify_eq.
    destruct (decide (c' = a)) as [-> | Hca]; [left |].
    right. by eapply IH.
Qed.

Lemma runs_before_app a b l1 l2 :
  runs_before a b l1 → a ∈ l1 → runs_before a b (l1 ++ l2).
Proof.
  intros Hrb Hin pre post Heq.
  apply app_eq_inv in Heq as [(k & -> & Hk) | (k & -> & Hk)].
  - destruct k as [| c k']; cbn in Hk.
    + rewrite app_nil_r in Hin. exact Hin.
    + simplify_eq. by apply (Hrb pre k').
  - apply elem_of_app. by left.
Qed.

Section LinkFacts.
Context `{Vpr, !TimingAnalysis, Shell, Structures, !LinkPasses}.

Variable g_vpr_ctx : VprContext.

Lemma link_arch_unsupported_run cmd cmd_context openfpga_ctx :
  is_vpr_rr_graph_supported (rr_graph (device g_vpr_ctx)) = false →
  link_arch g_vpr_ctx cmd cmd_context openfpga_ctx =
    (tt,
     set_vpr_routing_annotation (linked_routing_annotation g_vpr_ctx cmd cmd_context openfpga_ctx)
       (set_vpr_device_annotation (linked_device_annotation g_vpr_ctx cmd cmd_context openfpga_ctx)
          openfpga_ctx),
     link_calls_before_check).
Proof.
  intros Hcheck.
  unfold link_arch, mbind, Exec_bind, update, query, enter. rewrite Hcheck. reflexivity.
Qed.

Lemma link_arch_calls cmd cmd_context openfpga_ctx :
  calls (link_arch g_vpr_ctx cmd cmd_context openfpga_ctx) =
    link_calls_before_check ++
    (if is_vpr_rr_graph_supported (rr_graph (device g_vpr_ctx))
     then link_calls_after_check ++
          calls (annotate_simulation_setting g_vpr_ctx (atom g_vpr_ctx)
                   (sim_setting (arch openfpga_ctx)))
     else []).
Proof.
  destruct (is_vpr_rr_graph_supported (rr_graph (device g_vpr_ctx))) eqn:Hcheck.
  - unfold link_arch, mbind, Exec_bind, update, query, enter, on_member. rewrite Hcheck.
    rewrite bool_decide_eq_false_2 by done. cbn.
    destruct (annotate_simulation_setting _ _ _) as [[[] s] tr]. reflexivity.
  - by rewrite link_arch_unsupported_run.
Qed.

(** C2, as amended.  On a graph with a bidirectional track the link
    command returns right after the check of the graph.  By then the three
    passes over the device annotation and the two over the routing
    annotation have run, and these two structures are as the passes left
    them.  The switch blocks, the multiplexer library, the tile directs,
    the placement annotation, the clustering annotation and the
    architecture with its simulation settings are as they were, and no
    call is made after the check. *)
Theorem link_arch_stops_after_check cmd cmd_context openfpga_ctx :
  (∃ node, node ∈ rr_graph (device g_vpr_ctx) ∧ bidirectional_channel node) →
  vpr_device_annotation (final (link_arch g_vpr_ctx cmd cmd_context openfpga_ctx)) =
    linked_device_annotation g_vpr_ctx cmd cmd_context openfpga_ctx ∧
  vpr_routing_annotation (final (link_arch g_vpr_ctx cmd cmd_context openfpga_ctx)) =
    linked_routing_annotation g_vpr_ctx cmd cmd_context openfpga_ctx ∧
  device_rr_gsb (final (link_arch g_vpr_ctx cmd cmd_context openfpga_ctx)) =
    device_rr_gsb openfpga_ctx ∧
  mux_lib (final (link_arch g_vpr_ctx cmd cmd_context openfpga_ctx)) =
    mux_lib openfpga_ctx ∧
  tile_direct (final (link_arch g_vpr_ctx cmd cmd_context openfpga_ctx)) =
    tile_direct openfpga_ctx ∧
  vpr_placement_annotation (final (link_arch g_vpr_ctx cmd cmd_context openfpga_ctx)) =
    vpr_placement_annotation openfpga_ctx ∧
  vpr_clustering_annotation (final (link_arch g_vpr_ctx cmd cmd_context openfpga_ctx)) =
    vpr_clustering_annotation openfpga_ctx ∧
  arch (final (link_arch g_vpr_ctx cmd cmd_context openfpga_ctx)) = arch openfpga_ctx ∧
  calls (link_arch g_vpr_ctx cmd cmd_context openfpga_ctx) = link_calls_before_check.
Proof.
  intros Hbi. apply is_vpr_rr_graph_supported_false in Hbi.
  rewrite link_arch_unsupported_run by done.
  by repeat split.
Qed.

(** C4, as amended.  The link command calls the passes in the order of
    the spec, except for the check of the graph, which comes fifth rather
    than first: the two physical-binding passes, the circuit-model pass
    and the routing-net pass run first, then the check, and, on a graph
    that passes the check, the switch-block builder, the multiplexer
    library builder, the tile-direct builder, the placement annotator and
    the simulation-setting annotator.  So the check comes before every
    pass that builds on the switch blocks, and after the physical-binding,
    circuit-model and routing-net passes. *)
Theorem link_arch_call_order cmd cmd_context openfpga_ctx :
  calls (link_arch g_vpr_ctx cmd cmd_context openfpga_ctx) =
    [ Call_annotate_pb_types; Call_annotate_pb_graph;
      Call_annotate_rr_graph_circuit_models;
      Call_vpr_routing_annotation_init; Call_annotate_rr_node_nets;
      Call_is_vpr_rr_graph_supported ] ++
    (if is_vpr_rr_graph_supported (rr_graph (device g_vpr_ctx))
     then [ Call_annotate_device_rr_gsb; Call_build_device_mux_library;
            Call_build_device_tile_direct; Call_annotate_mapped_blocks;
            Call_annotate_simulation_setting ] ++
          calls (annotate_simulation_setting g_vpr_ctx (atom g_vpr_ctx)
                   (sim_setting (arch openfpga_ctx)))
     else []) ∧
  (∀ pass,
     pass ∈ [ Call_annotate_device_rr_gsb; Call_build_device_mux_library;
              Call_build_device_tile_direct; Call_annotate_mapped_blocks;
              Call_annotate_simulation_setting ] →
     runs_before Call_is_vpr_rr_graph_supported pass
       (calls (link_arch g_vpr_ctx cmd cmd_context openfpga_ctx))) ∧
  (∀ pass,
     pass ∈ [ Call_annotate_pb_types; Call_annotate_pb_graph;
              Call_annotate_rr_graph_circuit_models;
              Call_vpr_routing_annotation_init; Call_annotate_rr_node_nets ] →
     runs_before pass Call_is_vpr_rr_graph_supported
       (calls (link_arch g_vpr_ctx cmd cmd_context openfpga_ctx))).
Proof.
  split; [apply link_arch_calls |].
  rewrite link_arch_calls.
  split; intros pass Hin.
  - apply runs_before_app;
      [apply runs_beforeb_sound | apply (bool_decide_unpack _); vm_compute; exact I].
    repeat (apply elem_of_cons in Hin as [-> | Hin]; [reflexivity |]).
    by apply not_elem_of_nil in Hin.
  - repeat (apply elem_of_cons in Hin as [-> | Hin];
            [apply runs_before_app;
               [apply runs_beforeb_sound; reflexivity
               | apply (bool_decide_unpack _); vm_compute; exact I] |]).
    by apply not_elem_of_nil in Hin.
Qed.

End LinkFacts.

(** ** The repack command *)

Section RepackFacts.
Context `{Vpr, Shell, Structures, !RepackPasses}.

Variable g_vpr_ctx : VprContext.

Lemma repack_asserted (read_xml : string → RepackDesignConstraints)
    (cmd : Command) (cmd_context : CommandContext) (openfpga_ctx : OpenfpgaContext) :
  option_enable cmd_context cmd (cmd_option cmd "design_constraints") = true →
  option_value cmd_context cmd (cmd_option cmd "design_constraints") = "" →
  repack g_vpr_ctx read_xml cmd cmd_context openfpga_ctx = AssertionFailed.
Proof.
  intros Henable Hvalue. unfold repack. rewrite Henable, Hvalue. reflexivity.
Qed.

Lemma repack_returned (read_xml : string → RepackDesignConstraints)
    (cmd : Command) (cmd_context : CommandContext) (openfpga_ctx : OpenfpgaContext) :
  option_enable cmd_context cmd (cmd_option cmd "design_constraints") = false ∨
  option_value cmd_context cmd (cmd_option cmd "design_constraints") ≠ "" →
  repack g_vpr_ctx read_xml cmd cmd_context openfpga_ctx =
    Returned
      (CMD_EXEC_SUCCESS,
       after_build_physical_lut_truth_tables g_vpr_ctx cmd cmd_context
         (after_pack_physical_pbs g_vpr_ctx cmd cmd_context openfpga_ctx)).
Proof.
  intros Hcase. unfold repack.
  destruct (option_enable cmd_context cmd (cmd_option cmd "design_constraints")) eqn:Henable.
  - destruct Hcase as [| Hvalue]; [discriminate |].
    rewrite bool_decide_eq_true_2 by done.
    rewrite (bool_decide_eq_false_2 _ Hvalue). reflexivity.
  - rewrite bool_decide_eq_false_2 by done. reflexivity.
Qed.

Lemma repack_cases (read_xml : string → RepackDesignConstraints)
    (cmd : Command) (cmd_context : CommandContext) (openfpga_ctx : OpenfpgaContext) :
  (option_enable cmd_context cmd (cmd_option cmd "design_constraints") = true ∧
   option_value cmd_context cmd (cmd_option cmd "design_constraints") = "") ∨
  (option_enable cmd_context cmd (cmd_option cmd "design_constraints") = false ∨
   option_value cmd_context cmd (cmd_option cmd "design_constraints") ≠ "").
Proof.
  destruct (option_enable cmd_context cmd (cmd_option cmd "design_constraints"));
    [| by right; left].
  destruct (decide (option_value cmd_context cmd (cmd_option cmd "design_constraints") = ""));
    [by left | by right; right].
Qed.

(** C1.  The rules of the constraint file have no effect on the repack
    command: whatever the parser returns, for every constraint file, the
    command ends in the same way, with the same completion code and the
    same context.  So a rule cannot move a net to the pin it names, and a
    file with two rules for one pin is not told apart from a file without
    rules. *)
Theorem repack_ignores_design_constraints
    (read_xml read_xml' : string → RepackDesignConstraints)
    (cmd : Command) (cmd_context : CommandContext) (openfpga_ctx : OpenfpgaContext) :
  repack g_vpr_ctx read_xml cmd cmd_context openfpga_ctx =
  repack g_vpr_ctx read_xml' cmd cmd_context openfpga_ctx.
Proof.
  destruct (repack_cases read_xml cmd cmd_context openfpga_ctx) as [[He Hv] | Hcase].
  - by rewrite !repack_asserted.
  - by rewrite !repack_returned.
Qed.

(** C3.  The completion code does not follow the two steps: on a run in
    which the packing step or the truth-table step fails, and which is not
    stopped by the assertion on the file name, the repack command returns
    the success code, with the context as the two steps left it. *)
Theorem repack_reports_success_on_failed_step
    (read_xml : string → RepackDesignConstraints)
    (cmd : Command) (cmd_context : CommandContext) (openfpga_ctx : OpenfpgaContext) :
  pack_physical_pbs_status g_vpr_ctx cmd cmd_context openfpga_ctx = StepFailed ∨
  build_physical_lut_truth_tables_status g_vpr_ctx cmd cmd_context
    (after_pack_physical_pbs g_vpr_ctx cmd cmd_context openfpga_ctx) = StepFailed →
  option_enable cmd_context cmd (cmd_option cmd "design_constraints") = false ∨
  option_value cmd_context cmd (cmd_option cmd "design_constraints") ≠ "" →
  repack g_vpr_ctx read_xml cmd cmd_context openfpga_ctx =
    Returned
      (CMD_EXEC_SUCCESS,
       after_build_physical_lut_truth_tables g_vpr_ctx cmd cmd_context
         (after_pack_physical_pbs g_vpr_ctx cmd cmd_context openfpga_ctx)).
Proof.
  intros _ Hcase. by apply repack_returned.
Qed.

(** C10.  The repack command stops at the assertion on the file name if
    and only if the option [design_constraints] is enabled and its value
    is the empty string; in every other case it returns a completion code
    to its caller. *)
Theorem repack_asserts_constraint_file_name (read_xml : string → RepackDesignConstraints)
    (cmd : Command) (cmd_context : CommandContext) (openfpga_ctx : OpenfpgaContext) :
  (repack g_vpr_ctx read_xml cmd cmd_context openfpga_ctx = AssertionFailed ↔
     option_enable cmd_context cmd (cmd_option cmd "design_constraints") = true ∧
     option_value cmd_context cmd (cmd_option cmd "design_constraints") = "") ∧
  (repack g_vpr_ctx read_xml cmd cmd_context openfpga_ctx ≠ AssertionFailed →
     ∃ code openfpga_ctx',
       repack g_vpr_ctx read_xml cmd cmd_context openfpga_ctx =
         Returned (code, openfpga_ctx')).
Proof.
  destruct (repack_cases read_xml cmd cmd_context openfpga_ctx) as [[He Hv] | Hcase].
  - rewrite repack_asserted by done. split; [done |]. by intros [].
  - rewrite repack_returned by done. split; [| by eauto].
    split; [discriminate |]. intros [He Hv]. destruct Hcase; congruence.
Qed.

End RepackFacts.

(** ** The multiplexer library *)

Section MuxLibFacts.
Import MuxLib.

Lemma elem_of_add_mux (library : MuxLibrary) mux sig :
  sig ∈ add_mux library mux ↔ sig ∈ library ∨ sig = signature mux.
Proof.
  unfold add_mux. destruct (decide (signature mux ∈ library)) as [Hin | Hout].
  - split; [by left |]. intros [Hs | ->]; assumption.
  - rewrite elem_of_app, list_elem_of_singleton. reflexivity.
Qed.

Lemma add_mux_NoDup (library : MuxLibrary) mux :
  NoDup library → NoDup (add_mux library mux).
Proof.
  intros Hnd. unfold add_mux.
  destruct (decide (signature mux ∈ library)) as [Hin | Hout]; [assumption |].
  apply NoDup_app. split; [assumption |]. split; [| apply NoDup_singleton].
  intros sig Hsig Hnew. apply list_elem_of_singleton in Hnew as ->. contradiction.
Qed.

Lemma foldl_add_mux_NoDup muxes (library : MuxLibrary) :
  NoDup library → NoDup (foldl add_mux library muxes).
Proof.
  revert library. induction muxes as [| mux rest IH]; intros library Hnd; [assumption |].
  cbn. apply IH. by apply add_mux_NoDup.
Qed.

Lemma elem_of_foldl_add_mux muxes (library : MuxLibrary) sig :
  sig ∈ foldl add_mux library muxes ↔ sig ∈ library ∨ sig ∈ signature <$> muxes.
Proof.
  revert library. induction muxes as [| mux rest IH]; intros library; cbn.
  - split; [by left |]. intros [| Hin]; [assumption |]. by apply not_elem_of_nil in Hin.
  - rewrite IH, elem_of_add_mux, elem_of_cons. tauto.
Qed.

Lemma elem_of_build_device_mux_library gsbs pb_interconnect sig :
  sig ∈ build_device_mux_library gsbs pb_interconnect ↔
  sig ∈ signature <$> device_muxes gsbs pb_interconnect.
Proof.
  unfold build_device_mux_library. rewrite elem_of_foldl_add_mux.
  split; [| by right]. intros [Hin | Hin]; [| assumption]. by apply not_elem_of_nil in Hin.
Qed.

Lemma build_device_mux_library_NoDup gsbs pb_interconnect :
  NoDup (build_device_mux_library gsbs pb_interconnect).
Proof. apply foldl_add_mux_NoDup, NoDup_nil_2. Qed.

Lemma build_device_mux_library_length gsbs pb_interconnect :
  length (build_device_mux_library gsbs pb_interconnect) =
  length (distinct_signatures gsbs pb_interconnect).
Proof.
  apply Permutation_length, NoDup_Permutation.
  - apply build_device_mux_library_NoDup.
  - apply NoDup_remove_dups.
  - intros sig. unfold distinct_signatures.
    by rewrite elem_of_build_device_mux_library, elem_of_remove_dups.
Qed.

(** Every multiplexer of the device has a canonical identifier, and two
    of them have the same one exactly when their signatures are equal. *)
Lemma mux_id_same_iff_same_signature gsbs pb_interconnect mux1 mux2 :
  mux1 ∈ device_muxes gsbs pb_interconnect →
  mux2 ∈ device_muxes gsbs pb_interconnect →
  is_Some (mux_id (build_device_mux_library gsbs pb_interconnect) mux1) ∧
  (mux_id (build_device_mux_library gsbs pb_interconnect) mux1 =
   mux_id (build_device_mux_library gsbs pb_interconnect) mux2 ↔
   signature mux1 = signature mux2).
Proof.
  intros Hin1 Hin2. unfold mux_id.
  assert (Hfound : ∀ mux, mux ∈ device_muxes gsbs pb_interconnect →
            is_Some (list_find (λ entry, entry = signature mux)
                       (build_device_mux_library gsbs pb_interconnect))).
  { intros mux Hin. apply (list_find_elem_of _ _ (signature mux)); [| reflexivity].
    by apply elem_of_build_device_mux_library, list_elem_of_fmap_2. }
  destruct (Hfound mux1 Hin1) as [[i1 e1] Hf1], (Hfound mux2 Hin2) as [[i2 e2] Hf2].
  rewrite Hf1, Hf2. cbn. split; [eauto |].
  apply list_find_Some in Hf1 as (Hl1 & -> & _).
  pose proof Hf2 as Hf2'. apply list_find_Some in Hf2' as (Hl2 & -> & _).
  split.
  - intros [= ->]. congruence.
  - intros Heq. f_equal.
    eapply NoDup_lookup; [apply build_device_mux_library_NoDup | exact Hl1 |].
    by rewrite Heq.
Qed.

(** C8.  The library that the builder returns has no repeated entry, its
    entries are exactly the signatures of the multiplexers of the device
    (those of the switch blocks and those of the pb interconnect), and so
    its size is the number of distinct signatures; two devices with the
    same signatures get libraries of the same size, however many
    multiplexers carry each signature. *)
Theorem build_device_mux_library_one_entry_per_signature
    (gsbs : list GSB) (pb_interconnect : list MuxInstance) :
  NoDup (build_device_mux_library gsbs pb_interconnect) ∧
  (∀ sig, sig ∈ build_device_mux_library gsbs pb_interconnect ↔
          ∃ mux, mux ∈ device_muxes gsbs pb_interconnect ∧ signature mux = sig) ∧
  length (build_device_mux_library gsbs pb_interconnect) =
    length (distinct_signatures gsbs pb_interconnect) ∧
  (∀ gsbs' pb_interconnect',
     (∀ sig, sig ∈ signature <$> device_muxes gsbs' pb_interconnect' ↔
             sig ∈ signature <$> device_muxes gsbs pb_interconnect) →
     length (build_device_mux_library gsbs' pb_interconnect') =
     length (build_device_mux_library gsbs pb_interconnect)).
Proof.
  split; [apply build_device_mux_library_NoDup |].
  split; [| split; [apply build_device_mux_library_length |]].
  - intros sig. rewrite elem_of_build_device_mux_library, list_elem_of_fmap.
    split; intros (mux & H1 & H2); eauto.
  - intros gsbs' pb_interconnect' Hsame.
    apply Permutation_length, NoDup_Permutation;
      [apply build_device_mux_library_NoDup .. |].
    intros sig. by rewrite !elem_of_build_device_mux_library.
Qed.

End MuxLibFacts.

(** ** Runs on the small device *)

Section DemoRuns.
Import Demo.

(** The delay of the critical path is 3 and the slack is 1/4. *)
Lemma annotate_simulation_setting_frequency_within_tolerance_witness :
  Float.eqb Float.zero
    (operating_clock_frequency
       (Demo.settings_with_slack Float.zero Demo.float_quarter)) = true ∧
  Float.positive_finite
    (least_slack_critical_path_delay (Demo.float_of_Z 3)
       (load_net_delay_from_routing
          (Demo.g_vpr_ctx StepSucceeded (Demo.float_of_Z 3)))) ∧
  Float.nonnegative_finite
    (operating_clock_frequency_slack
       (Demo.settings_with_slack Float.zero Demo.float_quarter)) ∧
  derivation_in_range
    (least_slack_critical_path_delay (Demo.float_of_Z 3)
       (load_net_delay_from_routing
          (Demo.g_vpr_ctx StepSucceeded (Demo.float_of_Z 3))))
    (operating_clock_frequency_slack
       (Demo.settings_with_slack Float.zero Demo.float_quarter)) = true ∧
  (Qabs
     (Float.to_Q
        (operating_clock_frequency
           (final (annotate_simulation_setting
                     (Demo.g_vpr_ctx StepSucceeded (Demo.float_of_Z 3))
                     (Demo.float_of_Z 3)
                     (Demo.settings_with_slack Float.zero Demo.float_quarter))))
      * (Float.to_Q
           (least_slack_critical_path_delay (Demo.float_of_Z 3)
              (load_net_delay_from_routing
                 (Demo.g_vpr_ctx StepSucceeded (Demo.float_of_Z 3))))
         * (1 + Float.to_Q
                  (operating_clock_frequency_slack
                     (Demo.settings_with_slack Float.zero Demo.float_quarter))))
      - 1)
   <= frequency_tolerance)%Q.
Proof.
  assert (HT : Float.positive_finite
                 (least_slack_critical_path_delay (Demo.float_of_Z 3)
                    (load_net_delay_from_routing
                       (Demo.g_vpr_ctx StepSucceeded (Demo.float_of_Z 3)))))
    by (by exists 12582912%positive, (-22)%Z).
  assert (Hs : Float.nonnegative_finite
                 (operating_clock_frequency_slack
                    (Demo.settings_with_slack Float.zero Demo.float_quarter)))
    by (right; by exists 8388608%positive, (-25)%Z).
  split; [reflexivity |]. split; [exact HT |]. split; [exact Hs |].
  split; [reflexivity |].
  exact (annotate_simulation_setting_frequency_within_tolerance
           (Demo.g_vpr_ctx StepSucceeded (Demo.float_of_Z 3)) (Demo.float_of_Z 3)
           (Demo.settings_with_slack Float.zero Demo.float_quarter)
           eq_refl HT Hs eq_refl).
Defined.

(** The delay of the critical path is the [float] 3e38 and the slack is 1,
    both numbers of single precision.  The product overflows when it is
    narrowed to [T_crit], and the frequency that is stored is zero: it is
    not [1 / (T * (1 + s))], which is about 1.67e-39, and it is not within
    the tolerance of it. *)
Lemma derived_frequency_overflows :
  valid_binary Float.float_prec Float.float_emax Demo.float_3e38 = true ∧
  valid_binary Float.float_prec Float.float_emax Demo.float_1 = true ∧
  Float.eqb Float.zero
    (operating_clock_frequency (Demo.settings_with_slack Float.zero Demo.float_1)) = true ∧
  operating_clock_frequency
    (final (annotate_simulation_setting
              (Demo.g_vpr_ctx StepSucceeded Demo.float_3e38) Demo.float_3e38
              (Demo.settings_with_slack Float.zero Demo.float_1))) = S754_zero false ∧
  ¬ (Float.to_Q
       (operating_clock_frequency
          (final (annotate_simulation_setting
                    (Demo.g_vpr_ctx StepSucceeded Demo.float_3e38) Demo.float_3e38
                    (Demo.settings_with_slack Float.zero Demo.float_1))))
     == 1 / (Float.to_Q Demo.float_3e38 * (1 + Float.to_Q Demo.float_1)))%Q ∧
  ¬ (Qabs
       (Float.to_Q
          (operating_clock_frequency
             (final (annotate_simulation_setting
                       (Demo.g_vpr_ctx StepSucceeded Demo.float_3e38) Demo.float_3e38
                       (Demo.settings_with_slack Float.zero Demo.float_1))))
        * (Float.to_Q Demo.float_3e38 * (1 + Float.to_Q Demo.float_1))
        - 1)
     <= frequency_tolerance)%Q.
Proof.
  split; [reflexivity |]. split; [reflexivity |]. split; [reflexivity |].
  split; [reflexivity |]. split.
  - intros Heq. vm_compute in Heq. discriminate.
  - intros Hle. vm_compute in Hle. by apply Hle.
Qed.

(** A frequency of 100 is configured. *)
Lemma annotate_simulation_setting_keeps_configured_witness :
  Float.eqb Float.zero
    (operating_clock_frequency (Demo.settings (Demo.float_of_Z 100))) = false ∧
  final (annotate_simulation_setting
           (Demo.g_vpr_ctx StepSucceeded (Demo.float_of_Z 3)) (Demo.float_of_Z 3)
           (Demo.settings (Demo.float_of_Z 100))) =
    Demo.settings (Demo.float_of_Z 100) ∧
  calls (annotate_simulation_setting
           (Demo.g_vpr_ctx StepSucceeded (Demo.float_of_Z 3)) (Demo.float_of_Z 3)
           (Demo.settings (Demo.float_of_Z 100))) = [].
Proof.
  split; [reflexivity |].
  exact (annotate_simulation_setting_keeps_configured
           (Demo.g_vpr_ctx StepSucceeded (Demo.float_of_Z 3)) (Demo.float_of_Z 3)
           (Demo.settings (Demo.float_of_Z 100)) eq_refl).
Defined.

Lemma demo_graph_has_bidirectional_channel :
  ∃ node, node ∈ rr_graph (device (Demo.g_vpr_ctx StepSucceeded (Demo.float_of_Z 3))) ∧
          bidirectional_channel node.
Proof.
  exists (mk_rr_node CHANX BI_DIRECTION). split; [| split; [by left | reflexivity]].
  apply elem_of_cons. right. apply elem_of_cons. by left.
Defined.

(** The graph of the small device has a bidirectional track; the link
    command stops after the check and leaves the switch blocks, the
    library and the settings alone. *)
Lemma link_arch_stops_after_check_witness :
  (∃ node, node ∈ rr_graph (device (Demo.g_vpr_ctx StepSucceeded (Demo.float_of_Z 3))) ∧
           bidirectional_channel node) ∧
  vpr_routing_annotation
    (final (link_arch (Demo.g_vpr_ctx StepSucceeded (Demo.float_of_Z 3)) Demo.cmd (Demo.cmd_context [])
              (Demo.openfpga_ctx Float.zero))) = [Some 7; Some 7; Some 7] ∧
  arch (final (link_arch (Demo.g_vpr_ctx StepSucceeded (Demo.float_of_Z 3)) Demo.cmd (Demo.cmd_context [])
                 (Demo.openfpga_ctx Float.zero))) = arch (Demo.openfpga_ctx Float.zero) ∧
  calls (link_arch (Demo.g_vpr_ctx StepSucceeded (Demo.float_of_Z 3)) Demo.cmd (Demo.cmd_context [])
           (Demo.openfpga_ctx Float.zero)) = link_calls_before_check.
Proof.
  split; [exact demo_graph_has_bidirectional_channel |].
  destruct (link_arch_stops_after_check
              (Demo.g_vpr_ctx StepSucceeded (Demo.float_of_Z 3)) Demo.cmd (Demo.cmd_context [])
              (Demo.openfpga_ctx Float.zero) demo_graph_has_bidirectional_channel)
    as (_ & Hrouting & _ & _ & _ & _ & _ & Harch & Hcalls).
  split; [exact Hrouting |]. split; [exact Harch | exact Hcalls].
Defined.

(** On the same input the routing annotation, empty before the link
    command, holds the net of the routing solution after it, although the
    graph has a bidirectional track. *)
Lemma link_arch_annotates_unsupported_graph :
  (∃ node, node ∈ rr_graph (device (Demo.g_vpr_ctx StepSucceeded (Demo.float_of_Z 3))) ∧
           bidirectional_channel node) ∧
  vpr_routing_annotation
    (final (link_arch (Demo.g_vpr_ctx StepSucceeded (Demo.float_of_Z 3)) Demo.cmd (Demo.cmd_context [])
              (Demo.openfpga_ctx Float.zero))) ≠
  vpr_routing_annotation (Demo.openfpga_ctx Float.zero).
Proof.
  split; [exact demo_graph_has_bidirectional_channel |]. vm_compute. discriminate.
Qed.

(** On the same input the first call is the pass over the pb types, with
    no check of the graph before it. *)
Lemma link_arch_check_is_not_first :
  ¬ (∀ pass, pass ∈ annotation_passes →
       runs_before Call_is_vpr_rr_graph_supported pass
         (calls (link_arch (Demo.g_vpr_ctx StepSucceeded (Demo.float_of_Z 3)) Demo.cmd (Demo.cmd_context [])
                   (Demo.openfpga_ctx Float.zero)))).
Proof.
  intros Hfirst.
  specialize (Hfirst Call_annotate_pb_types (list_elem_of_here _ _)
                [] (tl link_calls_before_check) eq_refl).
  by apply not_elem_of_nil in Hfirst.
Qed.

(** The packing step fails on the small device; the option
    [design_constraints] is not given. *)
Lemma repack_reports_success_on_failed_step_witness :
  (pack_physical_pbs_status (Demo.g_vpr_ctx StepFailed (Demo.float_of_Z 3)) Demo.cmd (Demo.cmd_context [])
     (Demo.openfpga_ctx Float.zero) = StepFailed ∨
   build_physical_lut_truth_tables_status (Demo.g_vpr_ctx StepFailed (Demo.float_of_Z 3)) Demo.cmd (Demo.cmd_context [])
     (after_pack_physical_pbs (Demo.g_vpr_ctx StepFailed (Demo.float_of_Z 3)) Demo.cmd (Demo.cmd_context [])
        (Demo.openfpga_ctx Float.zero)) = StepFailed) ∧
  (option_enable (Demo.cmd_context []) Demo.cmd
     (cmd_option Demo.cmd "design_constraints") = false ∨
   option_value (Demo.cmd_context []) Demo.cmd
     (cmd_option Demo.cmd "design_constraints") ≠ "") ∧
  repack (Demo.g_vpr_ctx StepFailed (Demo.float_of_Z 3)) Demo.conflicting_file Demo.cmd (Demo.cmd_context [])
    (Demo.openfpga_ctx Float.zero) =
  Returned (CMD_EXEC_SUCCESS, Demo.openfpga_ctx Float.zero).
Proof.
  split; [left; reflexivity |]. split; [left; reflexivity |].
  exact (repack_reports_success_on_failed_step
           (Demo.g_vpr_ctx StepFailed (Demo.float_of_Z 3)) Demo.conflicting_file Demo.cmd (Demo.cmd_context [])
           (Demo.openfpga_ctx Float.zero) (or_introl eq_refl) (or_introl eq_refl)).
Defined.

(** A constraint file with two rules for the pin [clb.I[0]] is given; the
    repack command returns the success code, with the context that it
    returns when no file is given. *)
Example repack_conflicting_constraints :
  conflicting (Demo.conflicting_file "dc.xml") ∧
  repack (Demo.g_vpr_ctx StepSucceeded (Demo.float_of_Z 3)) Demo.conflicting_file Demo.cmd
    (Demo.cmd_context [("design_constraints", "dc.xml")]) (Demo.openfpga_ctx Float.zero) =
  Returned (CMD_EXEC_SUCCESS, Demo.openfpga_ctx Float.zero) ∧
  repack (Demo.g_vpr_ctx StepSucceeded (Demo.float_of_Z 3)) Demo.conflicting_file Demo.cmd
    (Demo.cmd_context []) (Demo.openfpga_ctx Float.zero) =
  Returned (CMD_EXEC_SUCCESS, Demo.openfpga_ctx Float.zero).
Proof.
  split; [| split; reflexivity].
  exists 0, 1, (mk_RepackDesignConstraint "net_a" "clb.I[0]"),
    (mk_RepackDesignConstraint "net_b" "clb.I[0]").
  by repeat split.
Qed.

(** The option is given with an empty value. *)
Example repack_empty_file_name :
  repack (Demo.g_vpr_ctx StepSucceeded (Demo.float_of_Z 3)) Demo.conflicting_file Demo.cmd
    (Demo.cmd_context [("design_constraints", "")]) (Demo.openfpga_ctx Float.zero) = AssertionFailed.
Proof. reflexivity. Qed.

(** Two tiles of the same structure give a library of one entry. *)
Example twin_tiles_library :
  MuxLib.build_device_mux_library Demo.twin_tiles [] =
    [ MuxLib.mk_MuxSignature [1; 1] 2 0 ] ∧
  MuxLib.mux_id (MuxLib.build_device_mux_library Demo.twin_tiles [])
    (MuxLib.mk_MuxInstance [(10, 1); (11, 1)] (12, 2) 0) = Some 0 ∧
  MuxLib.mux_id (MuxLib.build_device_mux_library Demo.twin_tiles [])
    (MuxLib.mk_MuxInstance [(20, 1); (21, 1)] (22, 2) 0) = Some 0.
Proof. by vm_compute. Qed.

(** On a graph whose only track is uni-directional the link command runs
    every pass. *)
Example link_arch_supported_run :
  calls (link_arch (Demo.g_vpr_ctx_unidirectional (Demo.float_of_Z 4))
           Demo.cmd (Demo.cmd_context []) (Demo.openfpga_ctx Float.zero)) =
    link_calls_before_check ++ link_calls_after_check ++
    [Call_load_net_delay_from_routing; Call_timing_info_update].
Proof. reflexivity. Qed.

End DemoRuns.

(** * Further properties *)

(** ** The compatibility checker on parts of a graph *)

(** X1.  A graph made of two parts passes the check exactly when both
    parts do. *)
Theorem is_vpr_rr_graph_supported_app (part1 part2 : RRGraph) :
  is_vpr_rr_graph_supported (part1 ++ part2) =
  is_vpr_rr_graph_supported part1 && is_vpr_rr_graph_supported part2.
Proof.
  induction part1 as [| node rest IH]; [reflexivity |].
  rewrite <- app_comm_cons, !is_vpr_rr_graph_supported_cons, IH.
  by rewrite andb_assoc.
Qed.

(** X2.  Taking nodes away from a graph that passes the check gives a
    graph that passes it. *)
Theorem is_vpr_rr_graph_supported_subgraph (rr_graph part : RRGraph) :
  (∀ node, node ∈ part → node ∈ rr_graph) →
  is_vpr_rr_graph_supported rr_graph = true →
  is_vpr_rr_graph_supported part = true.
Proof.
  rewrite !is_vpr_rr_graph_supported_true. intros Hsub Hall node Hin.
  apply Hall, Hsub, Hin.
Qed.

(** X3.  The answer of the checker depends on which nodes the graph has,
    not on their order nor on how often a node is listed. *)
Theorem is_vpr_rr_graph_supported_same_nodes (rr_graph other : RRGraph) :
  (∀ node, node ∈ other ↔ node ∈ rr_graph) →
  is_vpr_rr_graph_supported other = is_vpr_rr_graph_supported rr_graph.
Proof.
  intros Hsame.
  destruct (is_vpr_rr_graph_supported rr_graph) eqn:Hg.
  - revert Hg. rewrite !is_vpr_rr_graph_supported_true. intros Hall node Hin.
    by apply Hall, Hsame.
  - revert Hg. rewrite !is_vpr_rr_graph_supported_false. intros (node & Hin & Hbi).
    exists node. split; [by apply Hsame | assumption].
Qed.

(** X4.  The checker does not ask a track to have a direction: a graph
    whose tracks all have [NO_DIRECTION] passes. *)
Theorem is_vpr_rr_graph_supported_undirected_tracks (rr_graph : RRGraph) :
  (∀ node, node ∈ rr_graph → channel_node node → node_direction node = NO_DIRECTION) →
  is_vpr_rr_graph_supported rr_graph = true.
Proof.
  intros Hnone. apply is_vpr_rr_graph_supported_true. intros node Hin Hchan Hbi.
  specialize (Hnone node Hin Hchan). congruence.
Qed.

(** ** The simulation settings, run again and on degenerate delays *)

Section SimulationRuns.
Context `{Vpr, !TimingAnalysis}.

Variable g_vpr_ctx : VprContext.

Lemma annotate_simulation_setting_calls atom_ctx (sim_setting : SimulationSetting) :
  calls (annotate_simulation_setting g_vpr_ctx atom_ctx sim_setting) =
    if Float.eqb Float.zero (operating_clock_frequency sim_setting)
    then [Call_load_net_delay_from_routing; Call_timing_info_update]
    else [].
Proof.
  destruct (Float.eqb Float.zero (operating_clock_frequency sim_setting)) eqn:Hzero.
  - by rewrite annotate_simulation_setting_sentinel_run.
  - by rewrite annotate_simulation_setting_configured_run.
Qed.

Lemma annotate_simulation_setting_final atom_ctx (sim_setting : SimulationSetting) :
  final (annotate_simulation_setting g_vpr_ctx atom_ctx sim_setting) =
    if Float.eqb Float.zero (operating_clock_frequency sim_setting)
    then set_operating_clock_frequency
           (derived_frequency
              (least_slack_critical_path_delay atom_ctx
                 (load_net_delay_from_routing g_vpr_ctx))
              (operating_clock_frequency_slack sim_setting))
           sim_setting
    else sim_setting.
Proof.
  destruct (Float.eqb Float.zero (operating_clock_frequency sim_setting)) eqn:Hzero.
  - by rewrite annotate_simulation_setting_sentinel_run.
  - by rewrite annotate_simulation_setting_configured_run.
Qed.

(** X5.  Annotating the settings a second time changes nothing: the
    settings after two runs are the settings after one, and the second
    run makes no call unless the first one stored a zero. *)
Theorem annotate_simulation_setting_idempotent
    atom_ctx (sim_setting : SimulationSetting) :
  final (annotate_simulation_setting g_vpr_ctx atom_ctx
           (final (annotate_simulation_setting g_vpr_ctx atom_ctx sim_setting))) =
    final (annotate_simulation_setting g_vpr_ctx atom_ctx sim_setting) ∧
  (¬ Float.is_zero
       (operating_clock_frequency
          (final (annotate_simulation_setting g_vpr_ctx atom_ctx sim_setting))) →
   calls (annotate_simulation_setting g_vpr_ctx atom_ctx
            (final (annotate_simulation_setting g_vpr_ctx atom_ctx sim_setting))) = []).
Proof.
  split.
  - rewrite (annotate_simulation_setting_final atom_ctx sim_setting).
    destruct (Float.eqb Float.zero (operating_clock_frequency sim_setting)) eqn:Hzero.
    + rewrite annotate_simulation_setting_final.
      destruct (Float.eqb Float.zero
                  (operating_clock_frequency (set_operating_clock_frequency _ _)));
        reflexivity.
    + rewrite annotate_simulation_setting_final. by rewrite Hzero.
  - intros Hnz. apply Float_eqb_zero_false in Hnz.
    by rewrite annotate_simulation_setting_calls, Hnz.
Qed.

(** X6.  The division of line 87 is not guarded.  When the timing
    analysis reports a delay of zero and [1. + slack] is a finite number,
    zero included, the frequency that is stored is an infinity. *)
Theorem annotate_simulation_setting_zero_delay
    atom_ctx (sim_setting : SimulationSetting) delay_sign :
  Float.eqb Float.zero (operating_clock_frequency sim_setting) = true →
  least_slack_critical_path_delay atom_ctx (load_net_delay_from_routing g_vpr_ctx) =
    S754_zero delay_sign →
  Float.is_finite
    (Float.add_double Float.one_double
       (Float.to_double (operating_clock_frequency_slack sim_setting))) →
  operating_clock_frequency
    (final (annotate_simulation_setting g_vpr_ctx atom_ctx sim_setting)) =
    S754_infinity
      (xorb delay_sign
         (Float.sign
            (Float.add_double Float.one_double
               (Float.to_double (operating_clock_frequency_slack sim_setting))))).
Proof.
  intros Hzero Hdelay Hsum.
  rewrite annotate_simulation_setting_sentinel_run by done. cbn.
  unfold derived_frequency. rewrite Hdelay.
  destruct (Float.add_double Float.one_double _) as [sg | sg | | sg m e];
    try contradiction; reflexivity.
Qed.

(** X7.  A delay or a slack that is not a number gives a frequency that
    is not a number. *)
Theorem annotate_simulation_setting_nan
    atom_ctx (sim_setting : SimulationSetting) :
  Float.eqb Float.zero (operating_clock_frequency sim_setting) = true →
  least_slack_critical_path_delay atom_ctx (load_net_delay_from_routing g_vpr_ctx) = S754_nan ∨
  operating_clock_frequency_slack sim_setting = S754_nan →
  operating_clock_frequency
    (final (annotate_simulation_setting g_vpr_ctx atom_ctx sim_setting)) = S754_nan.
Proof.
  intros Hzero Hnan.
  rewrite annotate_simulation_setting_sentinel_run by done. cbn.
  unfold derived_frequency. destruct Hnan as [-> | ->]; [reflexivity |].
  by destruct (Float.to_double _).
Qed.

End SimulationRuns.

(** ** The link command on every graph *)

Section LinkRuns.
Context `{Vpr, !TimingAnalysis, Shell, Structures, !LinkPasses}.

Variable g_vpr_ctx : VprContext.

Lemma link_arch_supported_state
    (cmd : Command) (cmd_context : CommandContext) (openfpga_ctx : OpenfpgaContext) :
  is_vpr_rr_graph_supported (rr_graph (device g_vpr_ctx)) = true →
  link_arch g_vpr_ctx cmd cmd_context openfpga_ctx =
    (tt,
     set_arch
       (set_sim_setting
          (final (annotate_simulation_setting g_vpr_ctx (atom g_vpr_ctx)
                    (sim_setting (arch openfpga_ctx))))
          (arch openfpga_ctx))
       (set_vpr_placement_annotation
          (annotate_mapped_blocks (device g_vpr_ctx) (clustering g_vpr_ctx)
             (placement g_vpr_ctx) (vpr_placement_annotation openfpga_ctx))
          (set_tile_direct
             (build_device_tile_direct (device g_vpr_ctx) (arch_direct (arch openfpga_ctx)))
             (set_mux_lib
                (build_device_mux_library (device g_vpr_ctx)
                   (context_with_gsb g_vpr_ctx cmd cmd_context openfpga_ctx))
                (context_with_gsb g_vpr_ctx cmd cmd_context openfpga_ctx)))),
     link_calls_before_check ++ link_calls_after_check ++
     calls (annotate_simulation_setting g_vpr_ctx (atom g_vpr_ctx)
              (sim_setting (arch openfpga_ctx)))).
Proof.
  intros Hcheck.
  unfold link_arch, mbind, Exec_bind, update, query, enter, on_member. rewrite Hcheck.
  rewrite bool_decide_eq_false_2 by done. cbn.
  destruct (annotate_simulation_setting _ _ _) as [[[] s] tr]. reflexivity.
Qed.

(** X8.  The link command runs the timing analysis if and only if the
    graph passes the check and the operating clock frequency of the
    architecture is a zero. *)
Theorem link_arch_runs_timing_analysis
    (cmd : Command) (cmd_context : CommandContext) (openfpga_ctx : OpenfpgaContext) :
  Call_timing_info_update ∈ calls (link_arch g_vpr_ctx cmd cmd_context openfpga_ctx) ↔
  is_vpr_rr_graph_supported (rr_graph (device g_vpr_ctx)) = true ∧
  Float.is_zero (operating_clock_frequency (sim_setting (arch openfpga_ctx))).
Proof.
  rewrite <- Float_eqb_zero, link_arch_calls, annotate_simulation_setting_calls.
  destruct (is_vpr_rr_graph_supported (rr_graph (device g_vpr_ctx))),
    (Float.eqb Float.zero (operating_clock_frequency (sim_setting (arch openfpga_ctx)))); cbn;
    (split; [intros Hin | intros [? ?]]); try done;
    try (apply (bool_decide_unpack _); vm_compute; exact I);
    exfalso; apply (bool_decide_pack _) in Hin; vm_compute in Hin; exact Hin.
Qed.

(** X9.  Whatever the graph and the passes, the link command leaves the
    clustering annotation, the circuit library, the direct rules of the
    architecture, the clock-frequency slack and the cycle count as they
    were. *)
Theorem link_arch_frame
    (cmd : Command) (cmd_context : CommandContext) (openfpga_ctx : OpenfpgaContext) :
  vpr_clustering_annotation (final (link_arch g_vpr_ctx cmd cmd_context openfpga_ctx)) =
    vpr_clustering_annotation openfpga_ctx ∧
  circuit_lib (arch (final (link_arch g_vpr_ctx cmd cmd_context openfpga_ctx))) =
    circuit_lib (arch openfpga_ctx) ∧
  arch_direct (arch (final (link_arch g_vpr_ctx cmd cmd_context openfpga_ctx))) =
    arch_direct (arch openfpga_ctx) ∧
  operating_clock_frequency_slack
    (sim_setting (arch (final (link_arch g_vpr_ctx cmd cmd_context openfpga_ctx)))) =
    operating_clock_frequency_slack (sim_setting (arch openfpga_ctx)) ∧
  num_clock_cycles
    (sim_setting (arch (final (link_arch g_vpr_ctx cmd cmd_context openfpga_ctx)))) =
    num_clock_cycles (sim_setting (arch openfpga_ctx)).
Proof.
  destruct (is_vpr_rr_graph_supported (rr_graph (device g_vpr_ctx))) eqn:Hcheck.
  - rewrite link_arch_supported_state by done. cbn.
    rewrite annotate_simulation_setting_final.
    by destruct (Float.eqb Float.zero _).
  - by rewrite link_arch_unsupported_run.
Qed.

(** X10.  In a run of the link command no pass is called twice. *)
Theorem link_arch_calls_once
    (cmd : Command) (cmd_context : CommandContext) (openfpga_ctx : OpenfpgaContext) :
  NoDup (calls (link_arch g_vpr_ctx cmd cmd_context openfpga_ctx)).
Proof.
  rewrite link_arch_calls, annotate_simulation_setting_calls.
  destruct (is_vpr_rr_graph_supported (rr_graph (device g_vpr_ctx))),
    (Float.eqb Float.zero (operating_clock_frequency (sim_setting (arch openfpga_ctx))));
    apply (bool_decide_unpack _); vm_compute; exact I.
Qed.

(** X11.  The device annotation and the routing annotation that the link
    command leaves do not depend on the outcome of the check: on every
    graph they are what the passes of lines 115-140 made of them, and no
    later pass writes them. *)
Theorem link_arch_annotations_before_check
    (cmd : Command) (cmd_context : CommandContext) (openfpga_ctx : OpenfpgaContext) :
  vpr_device_annotation (final (link_arch g_vpr_ctx cmd cmd_context openfpga_ctx)) =
    linked_device_annotation g_vpr_ctx cmd cmd_context openfpga_ctx ∧
  vpr_routing_annotation (final (link_arch g_vpr_ctx cmd cmd_context openfpga_ctx)) =
    linked_routing_annotation g_vpr_ctx cmd cmd_context openfpga_ctx.
Proof.
  destruct (is_vpr_rr_graph_supported (rr_graph (device g_vpr_ctx))) eqn:Hcheck.
  - by rewrite link_arch_supported_state.
  - by rewrite link_arch_unsupported_run.
Qed.

(** X12.  The operating clock frequency after the link command: it is
    derived from the timing analysis when the graph passes the check and
    the frequency was a zero, and it is the frequency of before in every
    other case. *)
Theorem link_arch_operating_clock_frequency
    (cmd : Command) (cmd_context : CommandContext) (openfpga_ctx : OpenfpgaContext) :
  operating_clock_frequency
    (sim_setting (arch (final (link_arch g_vpr_ctx cmd cmd_context openfpga_ctx)))) =
    if is_vpr_rr_graph_supported (rr_graph (device g_vpr_ctx))
       && Float.eqb Float.zero (operating_clock_frequency (sim_setting (arch openfpga_ctx)))
    then derived_frequency
           (least_slack_critical_path_delay (atom g_vpr_ctx)
              (load_net_delay_from_routing g_vpr_ctx))
           (operating_clock_frequency_slack (sim_setting (arch openfpga_ctx)))
    else operating_clock_frequency (sim_setting (arch openfpga_ctx)).
Proof.
  destruct (is_vpr_rr_graph_supported (rr_graph (device g_vpr_ctx))) eqn:Hcheck.
  - rewrite link_arch_supported_state by done. cbn.
    rewrite annotate_simulation_setting_final.
    by destruct (Float.eqb Float.zero _).
  - by rewrite link_arch_unsupported_run.
Qed.

(** X13.  On a graph that passes the check, the multiplexer library is
    built from the context that already holds the device annotation, the
    routing annotation and the switch blocks of this run; the switch
    blocks, the tile directs and the placement annotation are built from
    the device and from what the context held for them before. *)
Theorem link_arch_builds_on_new_gsb
    (cmd : Command) (cmd_context : CommandContext) (openfpga_ctx : OpenfpgaContext) :
  is_vpr_rr_graph_supported (rr_graph (device g_vpr_ctx)) = true →
  device_rr_gsb (final (link_arch g_vpr_ctx cmd cmd_context openfpga_ctx)) =
    annotate_device_rr_gsb (device g_vpr_ctx) (device_rr_gsb openfpga_ctx)
      (option_enable cmd_context cmd (cmd_option cmd "verbose")) ∧
  mux_lib (final (link_arch g_vpr_ctx cmd cmd_context openfpga_ctx)) =
    build_device_mux_library (device g_vpr_ctx)
      (context_with_gsb g_vpr_ctx cmd cmd_context openfpga_ctx) ∧
  tile_direct (final (link_arch g_vpr_ctx cmd cmd_context openfpga_ctx)) =
    build_device_tile_direct (device g_vpr_ctx) (arch_direct (arch openfpga_ctx)) ∧
  vpr_placement_annotation (final (link_arch g_vpr_ctx cmd cmd_context openfpga_ctx)) =
    annotate_mapped_blocks (device g_vpr_ctx) (clustering g_vpr_ctx)
      (placement g_vpr_ctx) (vpr_placement_annotation openfpga_ctx).
Proof.
  intros Hcheck. by rewrite link_arch_supported_state.
Qed.

End LinkRuns.

(** ** The repack command and the rest of the context *)

Section RepackRuns.
Context `{Vpr, Shell, Structures, !RepackPasses}.

Variable g_vpr_ctx : VprContext.

(** X14.  A run of the repack command that returns leaves everything but
    the device annotation and the clustering annotation as it was: the
    architecture, the routing annotation, the placement annotation, the
    switch blocks, the multiplexer library and the tile directs. *)
Theorem repack_frame
    (read_xml : string → RepackDesignConstraints)
    (cmd : Command) (cmd_context : CommandContext)
    (openfpga_ctx openfpga_ctx' : OpenfpgaContext) (code : Z) :
  repack g_vpr_ctx read_xml cmd cmd_context openfpga_ctx = Returned (code, openfpga_ctx') →
  arch openfpga_ctx' = arch openfpga_ctx ∧
  vpr_routing_annotation openfpga_ctx' = vpr_routing_annotation openfpga_ctx ∧
  vpr_placement_annotation openfpga_ctx' = vpr_placement_annotation openfpga_ctx ∧
  device_rr_gsb openfpga_ctx' = device_rr_gsb openfpga_ctx ∧
  mux_lib openfpga_ctx' = mux_lib openfpga_ctx ∧
  tile_direct openfpga_ctx' = tile_direct openfpga_ctx.
Proof.
  destruct (repack_cases read_xml cmd cmd_context openfpga_ctx) as [[He Hv] | Hcase].
  - by rewrite repack_asserted.
  - rewrite repack_returned by done. intros [= _ <-]. by repeat split.
Qed.

(** X15.  Whether the option [design_constraints] is given, and with which
    file, has no effect on what a run of the repack command returns: two
    command contexts that agree on [verbose], and on which the command is
    not stopped by the assertion, give the same code and the same
    context. *)
Theorem repack_ignores_constraints_option
    (read_xml read_xml' : string → RepackDesignConstraints)
    (cmd : Command) (cmd_context cmd_context' : CommandContext)
    (openfpga_ctx : OpenfpgaContext) :
  option_enable cmd_context cmd (cmd_option cmd "verbose") =
    option_enable cmd_context' cmd (cmd_option cmd "verbose") →
  repack g_vpr_ctx read_xml cmd cmd_context openfpga_ctx ≠ AssertionFailed →
  repack g_vpr_ctx read_xml' cmd cmd_context' openfpga_ctx ≠ AssertionFailed →
  repack g_vpr_ctx read_xml cmd cmd_context openfpga_ctx =
  repack g_vpr_ctx read_xml' cmd cmd_context' openfpga_ctx.
Proof.
  intros Hverbose Hrun Hrun'.
  destruct (repack_cases read_xml cmd cmd_context openfpga_ctx) as [[He Hv] | Hcase];
    [by rewrite repack_asserted in Hrun |].
  destruct (repack_cases read_xml' cmd cmd_context' openfpga_ctx) as [[He Hv] | Hcase'];
    [by rewrite repack_asserted in Hrun' |].
  rewrite !repack_returned by done.
  unfold after_build_physical_lut_truth_tables, after_pack_physical_pbs.
  by rewrite Hverbose.
Qed.

End RepackRuns.

(** ** Further runs on the small device *)

Section DemoFurtherRuns.
Import Demo.

(** The track alone, out of the graph of a track and a pin. *)
Lemma is_vpr_rr_graph_supported_subgraph_witness :
  (∀ node, node ∈ [mk_rr_node CHANX INC_DIRECTION] →
           node ∈ [mk_rr_node CHANX INC_DIRECTION; mk_rr_node IPIN NO_DIRECTION]) ∧
  is_vpr_rr_graph_supported
    [mk_rr_node CHANX INC_DIRECTION; mk_rr_node IPIN NO_DIRECTION] = true ∧
  is_vpr_rr_graph_supported [mk_rr_node CHANX INC_DIRECTION] = true.
Proof.
  assert (Hsub : ∀ node, node ∈ [mk_rr_node CHANX INC_DIRECTION] →
                 node ∈ [mk_rr_node CHANX INC_DIRECTION; mk_rr_node IPIN NO_DIRECTION]).
  { intros node Hin. apply list_elem_of_singleton in Hin as ->. by left. }
  split; [exact Hsub |]. split; [reflexivity |].
  exact (is_vpr_rr_graph_supported_subgraph _ _ Hsub eq_refl).
Defined.

(** The same two nodes, in the other order and with the track listed
    twice. *)
Lemma is_vpr_rr_graph_supported_same_nodes_witness :
  (∀ node,
     node ∈ [mk_rr_node IPIN NO_DIRECTION; mk_rr_node CHANX INC_DIRECTION;
             mk_rr_node CHANX INC_DIRECTION] ↔
     node ∈ [mk_rr_node CHANX INC_DIRECTION; mk_rr_node IPIN NO_DIRECTION]) ∧
  is_vpr_rr_graph_supported
    [mk_rr_node IPIN NO_DIRECTION; mk_rr_node CHANX INC_DIRECTION;
     mk_rr_node CHANX INC_DIRECTION] =
  is_vpr_rr_graph_supported
    [mk_rr_node CHANX INC_DIRECTION; mk_rr_node IPIN NO_DIRECTION].
Proof.
  assert (Hsame : ∀ node,
     node ∈ [mk_rr_node IPIN NO_DIRECTION; mk_rr_node CHANX INC_DIRECTION;
             mk_rr_node CHANX INC_DIRECTION] ↔
     node ∈ [mk_rr_node CHANX INC_DIRECTION; mk_rr_node IPIN NO_DIRECTION]).
  { intros node. rewrite !elem_of_cons, !elem_of_nil. tauto. }
  split; [exact Hsame |].
  exact (is_vpr_rr_graph_supported_same_nodes _ _ Hsame).
Defined.

(** A vertical track without a direction, next to a source. *)
Lemma is_vpr_rr_graph_supported_undirected_tracks_witness :
  (∀ node, node ∈ [mk_rr_node CHANY NO_DIRECTION; mk_rr_node SOURCE NO_DIRECTION] →
           channel_node node → node_direction node = NO_DIRECTION) ∧
  is_vpr_rr_graph_supported
    [mk_rr_node CHANY NO_DIRECTION; mk_rr_node SOURCE NO_DIRECTION] = true.
Proof.
  assert (Hnone : ∀ node,
            node ∈ [mk_rr_node CHANY NO_DIRECTION; mk_rr_node SOURCE NO_DIRECTION] →
            channel_node node → node_direction node = NO_DIRECTION).
  { intros node Hin _. rewrite !elem_of_cons, elem_of_nil in Hin.
    destruct Hin as [-> | [-> | []]]; reflexivity. }
  split; [exact Hnone |].
  exact (is_vpr_rr_graph_supported_undirected_tracks _ Hnone).
Defined.

(** The timing analysis reports a delay of zero and the slack is -1, so
    that [1. + slack] is zero. *)
Lemma annotate_simulation_setting_zero_delay_witness :
  Float.eqb Float.zero
    (operating_clock_frequency
       (Demo.settings_with_slack Float.zero Demo.float_minus_1)) = true ∧
  least_slack_critical_path_delay (S754_zero false)
    (load_net_delay_from_routing (Demo.g_vpr_ctx StepSucceeded (S754_zero false))) =
    S754_zero false ∧
  Float.is_finite
    (Float.add_double Float.one_double
       (Float.to_double
          (operating_clock_frequency_slack
             (Demo.settings_with_slack Float.zero Demo.float_minus_1)))) ∧
  operating_clock_frequency
    (final (annotate_simulation_setting
              (Demo.g_vpr_ctx StepSucceeded (S754_zero false)) (S754_zero false)
              (Demo.settings_with_slack Float.zero Demo.float_minus_1))) =
    S754_infinity false.
Proof.
  split; [reflexivity |]. split; [reflexivity |]. split; [exact I |].
  exact (annotate_simulation_setting_zero_delay
           (Demo.g_vpr_ctx StepSucceeded (S754_zero false)) (S754_zero false)
           (Demo.settings_with_slack Float.zero Demo.float_minus_1) false
           eq_refl eq_refl I).
Defined.

(** The same delay with a slack of zero, so that [1. + slack] is 1. *)
Example annotate_simulation_setting_zero_delay_no_slack :
  operating_clock_frequency
    (final (annotate_simulation_setting
              (Demo.g_vpr_ctx StepSucceeded (S754_zero false)) (S754_zero false)
              (Demo.settings Float.zero))) = S754_infinity false.
Proof. reflexivity. Qed.

(** The timing analysis reports a delay that is not a number. *)
Lemma annotate_simulation_setting_nan_witness :
  Float.eqb Float.zero (operating_clock_frequency (Demo.settings Float.zero)) = true ∧
  (least_slack_critical_path_delay S754_nan
     (load_net_delay_from_routing (Demo.g_vpr_ctx StepSucceeded S754_nan)) = S754_nan ∨
   operating_clock_frequency_slack (Demo.settings Float.zero) = S754_nan) ∧
  operating_clock_frequency
    (final (annotate_simulation_setting
              (Demo.g_vpr_ctx StepSucceeded S754_nan) S754_nan
              (Demo.settings Float.zero))) = S754_nan.
Proof.
  split; [reflexivity |]. split; [left; reflexivity |].
  exact (annotate_simulation_setting_nan
           (Demo.g_vpr_ctx StepSucceeded S754_nan) S754_nan
           (Demo.settings Float.zero) eq_refl (or_introl eq_refl)).
Defined.

(** The device with the uni-directional track passes the check. *)
Lemma link_arch_builds_on_new_gsb_witness :
  is_vpr_rr_graph_supported
    (rr_graph (device (Demo.g_vpr_ctx_unidirectional (Demo.float_of_Z 4)))) = true ∧
  mux_lib (final (link_arch (Demo.g_vpr_ctx_unidirectional (Demo.float_of_Z 4))
                    Demo.cmd (Demo.cmd_context []) (Demo.openfpga_ctx Float.zero))) =
    build_device_mux_library (device (Demo.g_vpr_ctx_unidirectional (Demo.float_of_Z 4)))
      (context_with_gsb (Demo.g_vpr_ctx_unidirectional (Demo.float_of_Z 4))
         Demo.cmd (Demo.cmd_context []) (Demo.openfpga_ctx Float.zero)).
Proof.
  split; [reflexivity |].
  exact (proj1 (proj2 (link_arch_builds_on_new_gsb
                         (Demo.g_vpr_ctx_unidirectional (Demo.float_of_Z 4))
                         Demo.cmd (Demo.cmd_context []) (Demo.openfpga_ctx Float.zero)
                         eq_refl))).
Defined.

(** The repack command returns on the small device. *)
Lemma repack_frame_witness :
  repack (Demo.g_vpr_ctx StepSucceeded (Demo.float_of_Z 3)) Demo.conflicting_file
    Demo.cmd (Demo.cmd_context [("design_constraints", "dc.xml")])
    (Demo.openfpga_ctx Float.zero) =
    Returned (CMD_EXEC_SUCCESS, Demo.openfpga_ctx Float.zero) ∧
  mux_lib (Demo.openfpga_ctx Float.zero) = mux_lib (Demo.openfpga_ctx Float.zero).
Proof.
  split; [reflexivity |].
  exact (proj1 (proj2 (proj2 (proj2 (proj2
           (repack_frame (Demo.g_vpr_ctx StepSucceeded (Demo.float_of_Z 3))
              Demo.conflicting_file Demo.cmd
              (Demo.cmd_context [("design_constraints", "dc.xml")])
              (Demo.openfpga_ctx Float.zero) (Demo.openfpga_ctx Float.zero)
              CMD_EXEC_SUCCESS eq_refl)))))).
Defined.

(** The option is given with a file in one run and not given in the
    other. *)
Lemma repack_ignores_constraints_option_witness :
  option_enable (Demo.cmd_context [("design_constraints", "dc.xml")]) Demo.cmd
    (cmd_option Demo.cmd "verbose") =
  option_enable (Demo.cmd_context []) Demo.cmd (cmd_option Demo.cmd "verbose") ∧
  repack (Demo.g_vpr_ctx StepSucceeded (Demo.float_of_Z 3)) Demo.conflicting_file
    Demo.cmd (Demo.cmd_context [("design_constraints", "dc.xml")])
    (Demo.openfpga_ctx Float.zero) ≠ AssertionFailed ∧
  repack (Demo.g_vpr_ctx StepSucceeded (Demo.float_of_Z 3)) (λ _, [])
    Demo.cmd (Demo.cmd_context []) (Demo.openfpga_ctx Float.zero) ≠ AssertionFailed ∧
  repack (Demo.g_vpr_ctx StepSucceeded (Demo.float_of_Z 3)) Demo.conflicting_file
    Demo.cmd (Demo.cmd_context [("design_constraints", "dc.xml")])
    (Demo.openfpga_ctx Float.zero) =
  repack (Demo.g_vpr_ctx StepSucceeded (Demo.float_of_Z 3)) (λ _, [])
    Demo.cmd (Demo.cmd_context []) (Demo.openfpga_ctx Float.zero).
Proof.
  assert (Hrun : repack (Demo.g_vpr_ctx StepSucceeded (Demo.float_of_Z 3))
                   Demo.conflicting_file Demo.cmd
                   (Demo.cmd_context [("design_constraints", "dc.xml")])
                   (Demo.openfpga_ctx Float.zero) ≠ AssertionFailed)
    by (vm_compute; discriminate).
  assert (Hrun' : repack (Demo.g_vpr_ctx StepSucceeded (Demo.float_of_Z 3)) (λ _, [])
                    Demo.cmd (Demo.cmd_context []) (Demo.openfpga_ctx Float.zero)
                  ≠ AssertionFailed)
    by (vm_compute; discriminate).
  split; [reflexivity |]. split; [exact Hrun |]. split; [exact Hrun' |].
  exact (repack_ignores_constraints_option
           (Demo.g_vpr_ctx StepSucceeded (Demo.float_of_Z 3))
           Demo.conflicting_file (λ _, []) Demo.cmd
           (Demo.cmd_context [("design_constraints", "dc.xml")]) (Demo.cmd_context [])
           (Demo.openfpga_ctx Float.zero) eq_refl Hrun Hrun').
Defined.

End DemoFurtherRuns.
